(** * Google Calendar AI agent: a shallow embedding of [config.py] and [main.py]

    The program reads four settings from the process environment, asks a
    language model to turn a free-text request into an intent, calls the
    calendar provider and formats a reply.  Everything outside the two
    source files (the clock, the HTTP library, the chat client, the JSON
    decoder) is a field of the [World] the program runs in; the program
    itself is a computation in a small state-and-exception monad whose
    state records every log line, network call and printed line. *)

From Stdlib Require Import ZArith String Ascii List Bool Lia.
From Stdlib Require Import Numbers.DecimalString.
From Stdlib Require Import PrimFloat.
Import ListNotations.

Local Open Scope list_scope.
Local Open Scope Z_scope.
Local Open Scope string_scope.

(* ------------------------------------------------------------------ *)
(** ** Strings as Python sees them *)

(** The line feed written [\n] in the source. *)
Definition nl : string := String (ascii_of_nat 10) "".

(** [c.lower()] on one character.  A string is its UTF-8 bytes; only the
    bytes of [A]..[Z] change.  Python also lowers letters outside ASCII,
    always to letters outside ASCII except for U+212A (to [k]) and U+0130
    (to [i] and a combining dot), so the test for ["create"] and ["add"]
    below sees the same answer. *)
Definition lower_ascii (c : ascii) : ascii :=
  let n := nat_of_ascii c in
  if ((65 <=? n)%nat && (n <=? 90)%nat)%bool then ascii_of_nat (n + 32) else c.

(** [s.lower()] *)
Fixpoint lower (s : string) : string :=
  match s with
  | EmptyString => EmptyString
  | String c r => String (lower_ascii c) (lower r)
  end.

(** [needle in hay] for two strings. *)
Fixpoint contains (needle hay : string) : bool :=
  (prefix needle hay
   || match hay with
      | EmptyString => false
      | String _ r => contains needle r
      end)%bool.

(** [sep.join(parts)] *)
Definition join (sep : string) (parts : list string) : string :=
  String.concat sep parts.

(** [str(n)] for an integer. *)
Definition str_of_Z (n : Z) : string :=
  NilZero.string_of_int (Z.to_int n).

(** The suffix of [s] that starts at its first opening brace. *)
Fixpoint from_first_open (s : string) : option string :=
  match s with
  | EmptyString => None
  | String c r => if Ascii.eqb c "{" then Some s else from_first_open r
  end.

(** The longest prefix of [s] that ends with a closing brace. *)
Fixpoint upto_last_close (s : string) : option string :=
  match s with
  | EmptyString => None
  | String c r =>
      match upto_last_close r with
      | Some p => Some (String c p)
      | None => if Ascii.eqb c "}" then Some (String c EmptyString) else None
      end
  end.

(** [re.search(r"(\{.*\})", text, re.S)], giving [m.group(1)] when there
    is a match.  With [re.S] the dot matches every character and the star
    is greedy, so the leftmost match runs from the first opening brace to
    the last closing brace after it. *)
Definition re_search_braces (text : string) : option string :=
  match from_first_open text with
  | None => None
  | Some s => upto_last_close s
  end.

(* ------------------------------------------------------------------ *)
(** ** Naive local date-times

    A [datetime] is a number of microseconds on the naive local time line,
    counted from 1970-01-01T00:00:00; a [timedelta] is a number of
    microseconds. *)

Definition timedelta (days hours : Z) : Z :=
  (days * 86400 + hours * 3600) * 1000000.

(** Year, month and day of a day number (days since 1970-01-01), in the
    proleptic Gregorian calendar [datetime] uses. *)
Definition civil_of_days (days : Z) : Z * Z * Z :=
  let z := days + 719468 in
  let era := z / 146097 in
  let doe := z - era * 146097 in
  let yoe := (doe - doe / 1460 + doe / 36524 - doe / 146096) / 365 in
  let doy := doe - (365 * yoe + yoe / 4 - yoe / 100) in
  let mp := (5 * doy + 2) / 153 in
  let d := doy - (153 * mp + 2) / 5 + 1 in
  let m := if Z.ltb mp 10 then mp + 3 else mp - 9 in
  let y := yoe + era * 400 in
  ((if Z.leb m 2 then y + 1 else y), m, d).

(** A natural number in decimal, padded with zeros on the left to [width]
    digits. *)
Fixpoint zero_pad (width : nat) (n : Z) : string :=
  match width with
  | O => ""
  | S w => zero_pad w (n / 10) ++ String (ascii_of_nat (48 + Z.to_nat (n mod 10))) ""
  end.

(** [dt.isoformat()]: [YYYY-MM-DDTHH:MM:SS], followed by [.ffffff] when the
    microsecond part is not zero. *)
Definition isoformat (t : Z) : string :=
  let secs := t / 1000000 in
  let us := t mod 1000000 in
  let days := secs / 86400 in
  let sod := secs mod 86400 in
  let '(y, m, d) := civil_of_days days in
  zero_pad 4 y ++ "-" ++ zero_pad 2 m ++ "-" ++ zero_pad 2 d ++ "T"
  ++ zero_pad 2 (sod / 3600) ++ ":" ++ zero_pad 2 (sod mod 3600 / 60)
  ++ ":" ++ zero_pad 2 (sod mod 60)
  ++ (if Z.eqb us 0 then "" else "." ++ zero_pad 6 us).

(* ------------------------------------------------------------------ *)
(** ** Python values

    The values the program handles: what [json.loads] can return and what
    the dict and list displays of the source build.  A dict keeps its
    entries in insertion order; [lookup] finds the entry of a key. *)

#[local] Set Warnings "-register-all".

Inductive value : Type :=
| VNone
| VBool (b : bool)
| VInt (n : Z)
| VFloat (x : float)
| VStr (s : string)
| VList (items : list value)
| VDict (entries : list (string * value)).

Fixpoint lookup (k : string) (d : list (string * value)) : option value :=
  match d with
  | [] => None
  | (k', v) :: r => if String.eqb k k' then Some v else lookup k r
  end.

(** [bool(v)], the truth value used by [or], [not] and [if]. *)
Definition truthy (v : value) : bool :=
  match v with
  | VNone => false
  | VBool b => b
  | VInt n => negb (Z.eqb n 0)
  | VFloat x => negb (PrimFloat.eqb x 0%float)
  | VStr s => negb (String.eqb s "")
  | VList items => match items with [] => false | _ => true end
  | VDict entries => match entries with [] => false | _ => true end
  end.

(** [v == "lit"] for a string literal. *)
Definition eq_str (v : value) (lit : string) : bool :=
  match v with
  | VStr s => String.eqb s lit
  | _ => false
  end.

(** The characters of a string, each as a string of its own.  A string
    being its UTF-8 bytes, a character outside ASCII comes out as several
    items; the program only ever fails on the first item, whatever it
    is. *)
Fixpoint chars (s : string) : list value :=
  match s with
  | EmptyString => []
  | String c r => VStr (String c "") :: chars r
  end.

(* ------------------------------------------------------------------ *)
(** ** Configuration ([config.py]) *)

Record Config : Type := mkConfig {
  OPENAI_API_KEY : string;
  GOOGLE_API_TOKEN : string;
  CALENDAR_ID : string;
  TIMEZONE : string;
  mock : bool
}.

(** The process environment, after [load_dotenv()]: the value of a
    variable, when it is set. *)
Definition environ : Type := string -> option string.

(** [os.getenv(name, default)] *)
Definition getenv (env : environ) (name default : string) : string :=
  match env name with
  | Some v => v
  | None => default
  end.

(** The environment [env] with variable [name] set to [v], or unset. *)
Definition setenv (name : string) (v : option string) (env : environ) : environ :=
  fun k => if String.eqb k name then v else env k.

(** A string is true exactly when it is not empty. *)
Definition nonempty (s : string) : bool := negb (String.eqb s "").

(** [Config.load_from_env()] *)
Definition load_from_env (env : environ) : Config :=
  let oa := getenv env "OPENAI_API_KEY" "" in
  let g := getenv env "GOOGLE_API_TOKEN" "" in
  let c := getenv env "CALENDAR_ID" "" in
  let tz := getenv env "TIMEZONE" "Europe/Paris" in
  let mock := negb (nonempty oa && nonempty g && nonempty c) in
  mkConfig oa g c tz mock.

(** A variable is absent or empty. *)
Definition blank (env : environ) (name : string) : Prop :=
  env name = None \/ env name = Some "".

(* ------------------------------------------------------------------ *)
(** ** Exceptions, effects and the world outside the program *)

Inductive exn : Type :=
| Exception_ (msg : string)     (* [raise Exception(msg)] *)
| AttributeError                (* [.get] on a value that is not a dict *)
| TypeError                     (* a value of the wrong type *)
| JSONDecodeError               (* [json.loads] on text that is not JSON *)
| LibraryError (name : string). (* raised inside [requests] or [openai] *)

Inductive result (A : Type) : Type :=
| Ok (a : A)
| Err (e : exn).

Arguments Ok {A} a.
Arguments Err {A} e.

(** What the program reads from a [requests] response: [r.ok], [r.text]
    and [r.json()], the last being [None] when decoding raises. *)
Record response : Type := mkResponse {
  ok : bool;
  text : string;
  json : option value
}.

(** The request [client.chat.completions.create] sends. *)
Record chat_request : Type := mkChat {
  api_key : string;
  model : string;
  messages : list (string * string);   (* role, content *)
  temperature : float
}.

(** Everything the program does that the outside can see. *)
Inductive event : Type :=
| EvLog (msg : string)
| EvPost (url : string) (headers : list (string * string)) (payload : value)
| EvGet (url : string) (headers : list (string * string))
        (params : list (string * value))
| EvChat (req : chat_request)
| EvPrint (line : string).

(** A network call to one of the two external services. *)
Definition is_network (e : event) : bool :=
  match e with
  | EvPost _ _ _ | EvGet _ _ _ | EvChat _ => true
  | EvLog _ | EvPrint _ => false
  end.

Definition network_calls (tr : list event) : list event :=
  filter is_network tr.

(** The libraries and services the program calls.  [now k] is the [k]-th
    reading of [datetime.now()] in a run; the HTTP and chat oracles
    answer a request or raise; [chat_create] gives
    [res.choices[0].message.content], which may be [None]. *)
Record World : Type := mkWorld {
  json_loads : string -> option value;
  float_repr : float -> string;
  str_repr : string -> string;
  now : nat -> Z;
  requests_post : string -> list (string * string) -> value -> result response;
  requests_get : string -> list (string * string) -> list (string * value)
                 -> result response;
  chat_create : chat_request -> result (option string)
}.

(** The state of a run: how many times the clock was read, and the
    events so far, oldest first. *)
Record State : Type := mkState {
  ticks : nat;
  trace : list event
}.

Definition initial : State := mkState 0 [].

(** A computation: from a state to a value or an exception, and the state
    reached. *)
Definition M (A : Type) : Type := State -> result A * State.

Definition ret {A} (a : A) : M A := fun st => (Ok a, st).

Definition raise {A} (e : exn) : M A := fun st => (Err e, st).

Definition bind {A B} (m : M A) (k : A -> M B) : M B :=
  fun st =>
    match m st with
    | (Ok a, st') => k a st'
    | (Err e, st') => (Err e, st')
    end.

(** [try: m  except Exception: h] *)
Definition try_except {A} (m : M A) (h : M A) : M A :=
  fun st =>
    match m st with
    | (Ok a, st') => (Ok a, st')
    | (Err _, st') => h st'
    end.

Definition emit (e : event) : M unit :=
  fun st => (Ok tt, mkState (ticks st) (trace st ++ [e])).

Definition lift {A} (r : result A) : M A := fun st => (r, st).

Declare Scope monad_scope.
Delimit Scope monad_scope with monad.
Notation "x <- m ;; k" := (bind m (fun x => k))
  (at level 61, m at next level, right associativity) : monad_scope.
Notation "m ;; k" := (bind m (fun _ => k))
  (at level 61, right associativity) : monad_scope.
Local Open Scope monad_scope.

(** [for x in xs: acc = body(acc, x)] *)
Fixpoint for_each {A B} (body : B -> A -> M B) (acc : B) (xs : list A) : M B :=
  match xs with
  | [] => ret acc
  | x :: r => acc' <- body acc x ;; for_each body acc' r
  end.

(** [log.info(msg)] *)
Definition log_info (msg : string) : M unit := emit (EvLog msg).

(** [print(line)] *)
Definition print (line : string) : M unit := emit (EvPrint line).

(** [v.get(key, default)] *)
Definition get (v : value) (key : string) (default : value) : M value :=
  match v with
  | VDict d =>
      ret (match lookup key d with Some x => x | None => default end)
  | _ => raise AttributeError
  end.

(** The elements [for e in v] runs over. *)
Definition iterate (v : value) : M (list value) :=
  match v with
  | VList items => ret items
  | VDict entries => ret (map (fun kv => VStr (fst kv)) entries)
  | VStr s => ret (chars s)
  | _ => raise TypeError
  end.

(* ------------------------------------------------------------------ *)
(** ** The agent ([main.py]) *)

Section Agent.

(** The module-level [cfg = Config.load_from_env()] and the world the
    process runs in. *)
Variable cfg : Config.
Variable W : World.

(** [repr(v)]; the text of a float and of a quoted string are the
    library's. *)
Fixpoint py_repr (v : value) : string :=
  match v with
  | VNone => "None"
  | VBool true => "True"
  | VBool false => "False"
  | VInt n => str_of_Z n
  | VFloat x => float_repr W x
  | VStr s => str_repr W s
  | VList items =>
      "[" ++ join ", " (map py_repr items) ++ "]"
  | VDict entries =>
      "{" ++ join ", "
               (map (fun kv => str_repr W (fst kv) ++ ": " ++ py_repr (snd kv))
                    entries) ++ "}"
  end.

(** [str(v)], which is what a replacement field of an f-string shows. *)
Definition py_str (v : value) : string :=
  match v with
  | VStr s => s
  | _ => py_repr v
  end.

(** [datetime.now()] *)
Definition datetime_now : M Z :=
  fun st => (Ok (now W (ticks st)), mkState (S (ticks st)) (trace st)).

(** [json.loads(text)]; [text] is [None] when the model sent no content. *)
Definition json_loads_py (text : option string) : M value :=
  match text with
  | None => raise TypeError
  | Some s =>
      match json_loads W s with
      | Some v => ret v
      | None => raise JSONDecodeError
      end
  end.

(** [re.search(r"(\{.*\})", text, re.S)] *)
Definition re_search (text : option string) : M (option string) :=
  match text with
  | None => raise TypeError
  | Some s => ret (re_search_braces s)
  end.

(** [r.json()] *)
Definition response_json (r : response) : M value :=
  match json r with
  | Some v => ret v
  | None => raise JSONDecodeError
  end.

(** [requests.post(url, headers=headers, json=payload)] *)
Definition post (url : string) (headers : list (string * string))
    (payload : value) : M response :=
  emit (EvPost url headers payload) ;;
  lift (requests_post W url headers payload).

(** [requests.get(url, headers=headers, params=params)] *)
Definition http_get (url : string) (headers : list (string * string))
    (params : list (string * value)) : M response :=
  emit (EvGet url headers params) ;;
  lift (requests_get W url headers params).

(** [client.chat.completions.create(...)], then
    [res.choices[0].message.content]. *)
Definition chat_completion (req : chat_request) : M (option string) :=
  emit (EvChat req) ;;
  lift (chat_create W req).

(** *** Mock mode helpers *)

Definition mock_ack : value :=
  VDict [("status", VStr "mocked");
         ("htmlLink", VStr "https://calendar.google.com/mock/event")].

Definition mock_events (start end_ : value) : value :=
  VList [VDict [("summary", VStr "Mock Meeting with Team");
                ("start", start); ("end", end_)];
         VDict [("summary", VStr "Demo Call");
                ("start", start); ("end", end_)]].

Definition mock_create_event (title desc start end_ : value) : M value :=
  log_info ("[MOCK] Creating event '" ++ py_str title ++ "' from "
            ++ py_str start ++ " to " ++ py_str end_) ;;
  ret mock_ack.

Definition mock_get_events (start end_ : value) : M value :=
  log_info ("[MOCK] Retrieving events between " ++ py_str start ++ " and "
            ++ py_str end_) ;;
  ret (mock_events start end_).

(** *** Google Calendar API *)

Definition events_url : string :=
  "https://www.googleapis.com/calendar/v3/calendars/" ++ CALENDAR_ID cfg
  ++ "/events".

(** The local variables [headers] and [payload] of [create_event]. *)
Definition create_headers : list (string * string) :=
  [("Authorization", "Bearer " ++ GOOGLE_API_TOKEN cfg);
   ("Content-Type", "application/json")].

Definition create_payload (title description start_time end_time : value)
    : value :=
  VDict [("summary", title);
         ("description", description);
         ("start", VDict [("dateTime", start_time);
                          ("timeZone", VStr (TIMEZONE cfg))]);
         ("end", VDict [("dateTime", end_time);
                        ("timeZone", VStr (TIMEZONE cfg))])].

Definition create_event (title description start_time end_time : value)
    : M value :=
  if mock cfg then mock_create_event title description start_time end_time
  else
    r <- post events_url create_headers
              (create_payload title description start_time end_time) ;;
    if negb (ok r)
    then raise (Exception_ ("Google Calendar API error: " ++ text r))
    else response_json r.

(** The local variables [headers] and [params] of [get_events]. *)
Definition list_headers : list (string * string) :=
  [("Authorization", "Bearer " ++ GOOGLE_API_TOKEN cfg)].

Definition list_params (start_time end_time : value)
    : list (string * value) :=
  [("timeMin", start_time); ("timeMax", end_time);
   ("singleEvents", VBool true); ("orderBy", VStr "startTime")].

Definition get_events (start_time end_time : value) : M value :=
  if mock cfg then mock_get_events start_time end_time
  else
    r <- http_get events_url list_headers (list_params start_time end_time) ;;
    if negb (ok r)
    then raise (Exception_ ("Failed to retrieve events: " ++ text r))
    else
      body <- response_json r ;;
      get body "items" (VList []).

(** *** OpenAI parsing *)

#[local] Set Warnings "-inexact-float".

Definition system_prompt : string :=
  "You are a Google Calendar assistant. "
  ++ "Analyze the user's message and return a JSON with keys: "
  ++ "action ('create' or 'get'), event_title, event_description, start_date, end_date. "
  ++ "Date format: ISO8601. If retrieving, include start_date and end_date range.".

(** The request sent for [message]: the fixed model, instruction and
    temperature. *)
Definition chat_request_for (message : string) : chat_request :=
  mkChat (OPENAI_API_KEY cfg) "gpt-4o-mini"
         [("system", system_prompt); ("user", message)]
         0.2%float.

Definition interpret_user_request (message : string) : M value :=
  if mock cfg then
    log_info "[MOCK] Interpreting user message via OpenAI" ;;
    if (contains "create" (lower message) || contains "add" (lower message))%bool
    then
      t1 <- datetime_now ;;
      t2 <- datetime_now ;;
      ret (VDict [("action", VStr "create");
                  ("event_title", VStr "Team Meeting");
                  ("event_description", VStr "Discuss ongoing projects");
                  ("start_date", VStr (isoformat (t1 + timedelta 1 10)));
                  ("end_date", VStr (isoformat (t2 + timedelta 1 11)))])
    else
      t1 <- datetime_now ;;
      t2 <- datetime_now ;;
      ret (VDict [("action", VStr "get");
                  ("start_date", VStr (isoformat t1));
                  ("end_date", VStr (isoformat (t2 + timedelta 1 0)))])
  else
    text <- chat_completion (chat_request_for message) ;;
    try_except (json_loads_py text)
      (m <- re_search text ;;
       match m with
       | Some group1 => json_loads_py (Some group1)
       | None => ret (VDict [])
       end).

(** *** Main workflow *)

Definition greeting : string :=
  "Hello! I can help you manage your Google Calendar — ask me to create or check events.".

Definition no_events : string := "No events found in that range.".

Definition events_header : string := "📅 Here are your events:" ++ nl.

(** One turn of the loop over the events: the reply with the bullet line
    of [e] added. *)
Definition add_bullet (start : value) (reply : string) (e : value) : M string :=
  summary <- get e "summary" (VStr "Untitled") ;;
  st <- get e "start" (VDict []) ;;
  shown <- get st "dateTime" start ;;
  ret (reply ++ "- " ++ py_str summary ++ " (" ++ py_str shown ++ ")" ++ nl).

Definition run_agent (user_message : string) : M string :=
  log_info ("🤖 Received message: " ++ user_message) ;;
  data <- interpret_user_request user_message ;;
  action <- get data "action" VNone ;;
  if eq_str action "create" then
    t <- get data "event_title" VNone ;;
    let title := if truthy t then t else VStr "Untitled Event" in
    desc <- get data "event_description" (VStr "") ;;
    start <- get data "start_date" VNone ;;
    end_ <- get data "end_date" VNone ;;
    result <- create_event title desc start end_ ;;
    link <- get result "htmlLink" VNone ;;
    ret ("✅ Event '" ++ py_str title ++ "' created successfully!" ++ nl
         ++ py_str link)
  else if eq_str action "get" then
    start <- get data "start_date" VNone ;;
    end_ <- get data "end_date" VNone ;;
    events <- get_events start end_ ;;
    if negb (truthy events) then ret no_events
    else
      items <- iterate events ;;
      for_each (add_bullet start) events_header items
  else ret greeting.

Definition default_message : string :=
  "Create a meeting with Alex tomorrow at 2 PM".

(** [" ".join(sys.argv[1:]) or "Create a meeting ..."], with [args]
    standing for [sys.argv[1:]]. *)
Definition user_input_of (args : list string) : string :=
  let joined := join " " args in
  if nonempty joined then joined else default_message.

(** [main()] *)
Definition main (args : list string) : M unit :=
  let user_input := user_input_of args in
  reply <- run_agent user_input ;;
  print reply.

End Agent.

(* ------------------------------------------------------------------ *)
(** ** Sample configurations and worlds, for running the program *)

(** An environment given as a table of the variables that are set. *)
Fixpoint env_of (vars : list (string * string)) : environ :=
  fun k =>
    match vars with
    | [] => None
    | (k', v) :: r => if String.eqb k k' then Some v else env_of r k
    end.

(** No credentials: mock mode. *)
Definition mock_cfg : Config := load_from_env (env_of []).

(** All three credentials: live mode. *)
Definition live_cfg : Config :=
  load_from_env (env_of [("OPENAI_API_KEY", "sk-test");
                         ("GOOGLE_API_TOKEN", "ya29.test");
                         ("CALENDAR_ID", "primary")]).

(** A decoder given as a table of the texts it accepts. *)
Fixpoint decode_table (tbl : list (string * value)) (s : string) : option value :=
  match tbl with
  | [] => None
  | (k, v) :: r => if String.eqb s k then Some v else decode_table r s
  end.

(** A world whose clock starts at 2023-11-14T22:13:20 and advances by
    [step] microseconds at each reading, whose model answers [content],
    whose calendar answers [on_post] and [on_get], and whose decoder
    accepts the texts of [tbl]. *)
Definition sample_world (step : Z) (content : option string)
    (tbl : list (string * value)) (on_post on_get : result response) : World :=
  mkWorld (decode_table tbl)
          (fun _ => "<float>")
          (fun s => "'" ++ s ++ "'")
          (fun k => 1700000000000000 + step * Z.of_nat k)
          (fun _ _ _ => on_post)
          (fun _ _ _ => on_get)
          (fun _ => Ok content).

Definition unreachable : result response := Err (LibraryError "ConnectionError").

(** A world for mock mode: nothing outside answers. *)
Definition offline_world (step : Z) : World :=
  sample_world step None [] unreachable unreachable.

(** The double quote, and a JSON string literal. *)
Definition dq : string := String (ascii_of_nat 34) "".

Definition quoted (s : string) : string := dq ++ s ++ dq.

(** A JSON object with the given members, each already in JSON. *)
Definition json_object (members : list (string * string)) : string :=
  "{" ++ join ", " (map (fun kv => quoted (fst kv) ++ ": " ++ snd kv) members)
  ++ "}".

(** A "get" intent as the model would send it, and as decoded. *)
Definition get_intent_text : string :=
  json_object [("action", quoted "get");
               ("start_date", quoted "2024-05-01T00:00:00");
               ("end_date", quoted "2024-05-02T00:00:00")].

Definition get_intent : value :=
  VDict [("action", VStr "get");
         ("start_date", VStr "2024-05-01T00:00:00");
         ("end_date", VStr "2024-05-02T00:00:00")].

(** A "create" intent with an empty title. *)
Definition untitled_intent_text : string :=
  json_object [("action", quoted "create");
               ("event_title", quoted "");
               ("start_date", quoted "2024-05-01T09:00:00");
               ("end_date", quoted "2024-05-01T10:00:00")].

Definition untitled_intent : value :=
  VDict [("action", VStr "create");
         ("event_title", VStr "");
         ("start_date", VStr "2024-05-01T09:00:00");
         ("end_date", VStr "2024-05-01T10:00:00")].

(** The same intent wrapped in prose, which is not JSON as a whole. *)
Definition chatty_text : string :=
  "Sure! Here it is: " ++ get_intent_text ++ " Anything else?".

(** Calendar answers: an empty listing, a created event, a refusal. *)
Definition empty_listing : response :=
  mkResponse true (json_object [("items", "[]")])
             (Some (VDict [("items", VList [])])).


Definition refusal : response :=
  mkResponse false "quotaExceeded" None.

(** Live worlds: the model sends a "get" intent and the calendar has no
    event; the model sends an untitled "create" intent and the calendar
    accepts it, or refuses it; the model wraps its JSON in prose; the
    model sends prose only. *)
Definition listing_world : World :=
  sample_world 1 (Some get_intent_text) [(get_intent_text, get_intent)]
               unreachable (Ok empty_listing).


Definition refusing_world : World :=
  sample_world 1 (Some untitled_intent_text)
               [(untitled_intent_text, untitled_intent)]
               (Ok refusal) (Ok refusal).

Definition chatty_world : World :=
  sample_world 1 (Some chatty_text) [(get_intent_text, get_intent)]
               unreachable (Ok empty_listing).

Definition prose_world : World :=
  sample_world 1 (Some "I cannot help with that.") [] unreachable unreachable.

(* ------------------------------------------------------------------ *)
(** ** Vocabulary of the properties *)

(** [w] occurs in [message] when case is ignored: some stretch of
    [message] reads [w] once both are put in lower case. *)
Definition occurs_ignoring_case (w message : string) : Prop :=
  exists pre mid post, message = pre ++ mid ++ post /\ lower mid = lower w.

(** [g] is the first brace-delimited stretch of [text]: it opens with the
    first opening brace of [text] and closes with the last closing brace,
    which is where the greedy pattern stops. *)
Definition first_brace_delimited (text g : string) : Prop :=
  exists pre mid post,
    text = pre ++ g ++ post /\ g = "{" ++ mid ++ "}" /\
    contains "{" pre = false /\ contains "}" post = false.

(** [text] has no opening brace followed, anywhere later, by a closing
    brace. *)
Definition no_brace_delimited (text : string) : Prop :=
  forall pre mid post, text <> pre ++ "{" ++ mid ++ "}" ++ post.

(** The state [st] with the events [evs] added. *)
Definition after (st : State) (evs : list event) : State :=
  mkState (ticks st) (trace st ++ evs).

(** The state [st] after two more readings of the clock and the events
    [evs]. *)
Definition after_two_readings (st : State) (evs : list event) : State :=
  mkState (S (S (ticks st))) (trace st ++ evs).

(** [d.get(key)] on the entries of a dict. *)
Definition field (d : list (string * value)) (key : string) : value :=
  match lookup key d with
  | Some x => x
  | None => VNone
  end.

(** The title [run_agent] gives the event of an intent:
    [data.get("event_title") or "Untitled Event"]. *)
Definition title_of (d : list (string * value)) : value :=
  if truthy (field d "event_title") then field d "event_title"
  else VStr "Untitled Event".

(** The start a bullet line shows for an event with entries [ev]: its own
    ["dateTime"] when its ["start"] is a dict that has one, the requested
    [start] otherwise. *)
Definition shown_start (start : value) (ev : list (string * value)) : value :=
  match lookup "start" ev with
  | Some (VDict sd) =>
      match lookup "dateTime" sd with
      | Some x => x
      | None => start
      end
  | _ => start
  end.

(** The bullet line of an event with entries [ev]. *)
Definition bullet_line (W : World) (start : value)
    (ev : list (string * value)) : string :=
  "- "
  ++ py_str W (match lookup "summary" ev with
               | Some x => x
               | None => VStr "Untitled"
               end)
  ++ " (" ++ py_str W (shown_start start ev) ++ ")" ++ nl.

(** An event as the calendar provider sends it: its ["start"], when it
    has one, is a dict. *)
Definition start_is_dict (ev : list (string * value)) : Prop :=
  lookup "start" ev = None \/ exists sd, lookup "start" ev = Some (VDict sd).

(** The two canned intents of mock mode, from the two readings of the
    clock. *)
Definition canned_create (t1 t2 : Z) : value :=
  VDict [("action", VStr "create");
         ("event_title", VStr "Team Meeting");
         ("event_description", VStr "Discuss ongoing projects");
         ("start_date", VStr (isoformat (t1 + timedelta 1 10)));
         ("end_date", VStr (isoformat (t2 + timedelta 1 11)))].

Definition canned_get (t1 t2 : Z) : value :=
  VDict [("action", VStr "get");
         ("start_date", VStr (isoformat t1));
         ("end_date", VStr (isoformat (t2 + timedelta 1 0)))].

(** A world for mock mode whose clock is set back by one hour between
    its first reading (2023-11-14T22:13:20) and the following ones. *)
Definition rewinding_world : World :=
  mkWorld (fun _ => None) (fun _ => "<float>") (fun s => "'" ++ s ++ "'")
          (fun k => match k with
                    | O => 1700000000000000
                    | S _ => 1700000000000000 - timedelta 0 1
                    end)
          (fun _ _ _ => unreachable) (fun _ _ _ => unreachable)
          (fun _ => Ok None).

(* ------------------------------------------------------------------ *)
(** ** More sample worlds and vocabulary, for the rest of the program *)

(** An intent whose action is neither ["create"] nor ["get"]. *)
Definition delete_intent_text : string :=
  json_object [("action", quoted "delete")].

Definition delete_intent : value := VDict [("action", VStr "delete")].

(** Calendar answers: a listing of two events, the second without a
    summary or a start; a listing whose second event has a string for
    ["start"]; a body without ["items"]; a body whose ["items"] is a
    number; a created event without a link; a success whose body is not
    JSON. *)
Definition two_events : list (list (string * value)) :=
  [[("summary", VStr "Standup");
    ("start", VDict [("dateTime", VStr "2024-05-01T09:30:00")])];
   [("description", VStr "no title, no start")]].

Definition busy_listing : response :=
  mkResponse true "<two events>"
             (Some (VDict [("items", VList (map VDict two_events))])).

Definition odd_listing : response :=
  mkResponse true "<one good event, one odd event>"
             (Some (VDict [("items",
                            VList [VDict [("summary", VStr "Standup")];
                                   VDict [("summary", VStr "Odd");
                                          ("start", VStr "2024-05-01")];
                                   VDict [("summary", VStr "Never shown")]])])).

Definition bare_listing : response :=
  mkResponse true "{}" (Some (VDict [])).

Definition numeric_listing : response :=
  mkResponse true (json_object [("items", "7")])
             (Some (VDict [("items", VInt 7)])).

Definition linkless : response :=
  mkResponse true "{}" (Some (VDict [])).

Definition html_page : response :=
  mkResponse true "<html>gateway</html>" None.

(** Live worlds for these answers, the model sending the "get" intent or
    the untitled "create" intent of above. *)
Definition busy_world : World :=
  sample_world 1 (Some get_intent_text) [(get_intent_text, get_intent)]
               unreachable (Ok busy_listing).

Definition odd_world : World :=
  sample_world 1 (Some get_intent_text) [(get_intent_text, get_intent)]
               unreachable (Ok odd_listing).

Definition bare_world : World :=
  sample_world 1 (Some get_intent_text) [(get_intent_text, get_intent)]
               unreachable (Ok bare_listing).

Definition numeric_world : World :=
  sample_world 1 (Some get_intent_text) [(get_intent_text, get_intent)]
               unreachable (Ok numeric_listing).

Definition linkless_world : World :=
  sample_world 1 (Some untitled_intent_text)
               [(untitled_intent_text, untitled_intent)]
               (Ok linkless) unreachable.

Definition html_world : World :=
  sample_world 1 (Some untitled_intent_text)
               [(untitled_intent_text, untitled_intent)]
               (Ok html_page) (Ok html_page).

(** Live worlds for the interpreter: the model sends an unknown action, a
    JSON array, no content, braces around text that is not JSON; the chat
    call itself fails. *)
Definition delete_world : World :=
  sample_world 1 (Some delete_intent_text)
               [(delete_intent_text, delete_intent)] unreachable unreachable.

Definition array_world : World :=
  sample_world 1 (Some "[]") [("[]", VList [])] unreachable unreachable.

Definition silent_world : World :=
  sample_world 1 None [] unreachable unreachable.

Definition broken_world : World :=
  sample_world 1 (Some "Here you go: {action: get} I hope it helps") []
               unreachable unreachable.

Definition down_world : World :=
  mkWorld (fun _ => None) (fun _ => "<float>") (fun s => "'" ++ s ++ "'")
          (fun k => 1700000000000000 + Z.of_nat k)
          (fun _ _ _ => unreachable) (fun _ _ _ => unreachable)
          (fun _ => Err (LibraryError "APIConnectionError")).

(** The longest prefix of [s] that holds a single closing brace, at its
    end. *)
Fixpoint upto_first_close (s : string) : option string :=
  match s with
  | EmptyString => None
  | String c r =>
      if Ascii.eqb c "}" then Some (String c EmptyString)
      else match upto_first_close r with
           | Some p => Some (String c p)
           | None => None
           end
  end.

(** The first brace-delimited substring of a text as the words of the
    specification read: it opens at the first opening brace and closes
    at the first closing brace after it.  This is not what the source
    computes; [re_search_braces] is. *)
Definition spec_first_brace_delimited (text : string) : option string :=
  match from_first_open text with
  | None => None
  | Some s => upto_first_close s
  end.

(** A reply of the model that holds two JSON objects, and a live world
    whose model sends it; the decoder accepts each object, not the
    whole. *)
Definition two_objects_text : string :=
  get_intent_text ++ " or, if you prefer, " ++ delete_intent_text.

Definition two_objects_world : World :=
  sample_world 1 (Some two_objects_text)
               [(get_intent_text, get_intent);
                (delete_intent_text, delete_intent)]
               unreachable (Ok empty_listing).

(** The first log line of [run_agent]. *)
Definition received (message : string) : event :=
  EvLog ("🤖 Received message: " ++ message).

(** The reply of mock mode to a request to create an event. *)
Definition mock_confirmation : string :=
  "✅ Event 'Team Meeting' created successfully!" ++ nl
  ++ "https://calendar.google.com/mock/event".

(** The three log lines of a mock run that creates an event. *)
Definition mock_create_lines (message : string) (t1 t2 : Z) : list string :=
  ["🤖 Received message: " ++ message;
   "[MOCK] Interpreting user message via OpenAI";
   "[MOCK] Creating event 'Team Meeting' from "
   ++ isoformat (t1 + timedelta 1 10) ++ " to "
   ++ isoformat (t2 + timedelta 1 11)].

(** The three log lines of a mock run that lists events. *)
Definition mock_get_lines (message : string) (t1 t2 : Z) : list string :=
  ["🤖 Received message: " ++ message;
   "[MOCK] Interpreting user message via OpenAI";
   "[MOCK] Retrieving events between " ++ isoformat t1 ++ " and "
   ++ isoformat (t2 + timedelta 1 0)].

(** A computation that leaves the state as it found it. *)
Definition keeps_state {A : Type} (m : M A) : Prop :=
  forall st, snd (m st) = st.

(** An item of a listing the reply formatter cannot show: not a dict, or
    a dict whose ["start"] is there and is not a dict. *)
Definition malformed_event (e : value) : Prop :=
  (forall ev, e <> VDict ev) \/
  (exists ev x, e = VDict ev /\ lookup "start" ev = Some x /\
                forall sd, x <> VDict sd).

(** The calendar requests a run may make: none, one creation or one
    listing. *)
Definition at_most_one_calendar_call (cfg : Config) (calls : list event) : Prop :=
  calls = [] \/
  (exists title desc s e,
      calls = [EvPost (events_url cfg) (create_headers cfg)
                      (create_payload cfg title desc s e)]) \/
  (exists s e,
      calls = [EvGet (events_url cfg) (list_headers cfg) (list_params s e)]).

(* ------------------------------------------------------------------ *)
(** ** Strings: lower case and containment *)

Lemma lower_app (a b : string) : lower (a ++ b) = lower a ++ lower b.
Proof.
  induction a as [|c a IH]; simpl; [reflexivity | now rewrite IH].
Qed.

Lemma lower_split (s a b : string) :
  lower s = a ++ b ->
  exists a' b', s = a' ++ b' /\ lower a' = a /\ lower b' = b.
Proof.
  revert s; induction a as [|c a IH]; intros s H.
  - exists "", s. auto.
  - destruct s as [|c' s]; simpl in H; [discriminate|].
    injection H as Hc Hs.
    destruct (IH _ Hs) as (a' & b' & -> & Ha & Hb).
    exists (String c' a'), b'. simpl. now rewrite Hc, Ha.
Qed.

Lemma prefix_app_iff (n h : string) :
  prefix n h = true <-> exists post, h = n ++ post.
Proof.
  revert h; induction n as [|c n IH]; intros h; simpl.
  - split; [intros _; now exists h | intros _; now destruct h].
  - destruct h as [|c' h]; simpl.
    + split; [discriminate | intros [post H]; discriminate].
    + destruct (ascii_dec c c') as [->|Hne].
      * rewrite IH. split; intros [post H]; exists post.
        -- now rewrite H.
        -- now injection H.
      * split; [discriminate|].
        intros [post H]. injection H as Hc _. congruence.
Qed.

Lemma contains_iff (n h : string) :
  contains n h = true <-> exists pre post, h = pre ++ n ++ post.
Proof.
  induction h as [|c h IH].
  - cbn [contains]. rewrite orb_false_r, prefix_app_iff. split.
    + intros [post H]. now exists "", post.
    + intros (pre & post & H). destruct pre; [now exists post|discriminate].
  - cbn [contains]. rewrite orb_true_iff, IH, prefix_app_iff. split.
    + intros [[post H] | (pre & post & H)].
      * now exists "", post.
      * exists (String c pre), post. simpl. now rewrite H.
    + intros (pre & post & H). destruct pre as [|c' pre].
      * left. now exists post.
      * right. simpl in H. injection H as _ H. now exists pre, post.
Qed.

(** The test of the source, [w in message.lower()], says that [w] occurs
    in [message] when case is ignored. *)
Lemma contains_lower_iff (w message : string) :
  contains (lower w) (lower message) = true <-> occurs_ignoring_case w message.
Proof.
  rewrite contains_iff. split.
  - intros (pre & post & H).
    destruct (lower_split _ _ _ H) as (pre' & r & -> & _ & Hr).
    destruct (lower_split _ _ _ Hr) as (mid & post' & -> & Hm & _).
    now exists pre', mid, post'.
  - intros (pre & mid & post & -> & Hm).
    exists (lower pre), (lower post). now rewrite !lower_app, Hm.
Qed.

(* ------------------------------------------------------------------ *)
(** ** Strings: the brace pattern *)

Lemma app_assoc_s (a b c : string) : (a ++ b) ++ c = a ++ b ++ c.
Proof.
  induction a as [|x a IH]; simpl; [reflexivity | now rewrite IH].
Qed.

Lemma app_nil_r_s (a : string) : a ++ "" = a.
Proof.
  induction a as [|x a IH]; simpl; [reflexivity | now rewrite IH].
Qed.

Lemma contains_char_cons (a c : ascii) (r : string) :
  contains (String a "") (String c r)
  = (Ascii.eqb c a || contains (String a "") r)%bool.
Proof.
  cbn [contains]. f_equal. simpl.
  destruct (ascii_dec a c) as [->|Hne].
  - rewrite Ascii.eqb_refl. now destruct r.
  - symmetry. apply Ascii.eqb_neq. congruence.
Qed.

Lemma from_first_open_app (pre rest : string) :
  contains "{" pre = false ->
  from_first_open (pre ++ String "{" rest) = Some (String "{" rest).
Proof.
  induction pre as [|c pre IH]; intros H.
  - reflexivity.
  - rewrite contains_char_cons in H. apply orb_false_iff in H as [Hc Hp].
    simpl. rewrite Hc. now apply IH.
Qed.

Lemma from_first_open_some (text s : string) :
  from_first_open text = Some s ->
  exists pre rest,
    text = pre ++ s /\ s = String "{" rest /\ contains "{" pre = false.
Proof.
  induction text as [|c text IH]; simpl; [discriminate|].
  destruct (Ascii.eqb c "{") eqn:Hc.
  - intros [= <-]. apply Ascii.eqb_eq in Hc as ->.
    now exists "", text.
  - intros H. destruct (IH H) as (pre & rest & -> & -> & Hp).
    exists (String c pre), rest. repeat split.
    rewrite contains_char_cons, Hc. exact Hp.
Qed.

Lemma upto_last_close_none (s : string) :
  contains "}" s = false -> upto_last_close s = None.
Proof.
  induction s as [|c s IH]; intros H; [reflexivity|].
  rewrite contains_char_cons in H. apply orb_false_iff in H as [Hc Hs].
  simpl. now rewrite (IH Hs), Hc.
Qed.

Lemma upto_last_close_app (x post : string) :
  contains "}" post = false ->
  upto_last_close (x ++ String "}" post) = Some (x ++ "}").
Proof.
  intros H. induction x as [|c x IH]; simpl.
  - now rewrite (upto_last_close_none _ H).
  - now rewrite IH.
Qed.

Lemma upto_last_close_none_inv (s : string) :
  upto_last_close s = None -> contains "}" s = false.
Proof.
  induction s as [|c s IH]; [reflexivity|].
  cbn [upto_last_close].
  destruct (upto_last_close s); [discriminate|].
  destruct (Ascii.eqb c "}") eqn:Hc; [discriminate|].
  intros _. rewrite contains_char_cons, Hc. now apply IH.
Qed.

Lemma upto_last_close_some (s p : string) :
  upto_last_close s = Some p ->
  exists q post,
    s = p ++ post /\ p = q ++ "}" /\ contains "}" post = false.
Proof.
  revert p; induction s as [|c s IH]; intros p; simpl; [discriminate|].
  destruct (upto_last_close s) as [p'|] eqn:E.
  - intros [= <-]. destruct (IH _ eq_refl) as (q & post & -> & -> & Hpost).
    exists (String c q), post. now repeat split.
  - destruct (Ascii.eqb c "}") eqn:Hc; [|discriminate].
    intros [= <-]. apply Ascii.eqb_eq in Hc as ->.
    exists "", s. repeat split. now apply upto_last_close_none_inv.
Qed.

Lemma re_search_braces_first (text g : string) :
  first_brace_delimited text g -> re_search_braces text = Some g.
Proof.
  intros (pre & mid & post & -> & -> & Hpre & Hpost).
  unfold re_search_braces. cbn [append].
  rewrite (from_first_open_app pre _ Hpre).
  change (String "{" ((mid ++ "}") ++ post))
    with (String "{" (mid ++ "}") ++ post).
  replace (String "{" (mid ++ "}") ++ post)
    with (String "{" mid ++ String "}" post)
    by (cbn [append]; now rewrite app_assoc_s).
  rewrite (upto_last_close_app _ _ Hpost). reflexivity.
Qed.

Lemma re_search_braces_some (text g : string) :
  re_search_braces text = Some g -> first_brace_delimited text g.
Proof.
  unfold re_search_braces.
  destruct (from_first_open text) as [s|] eqn:Hs; [|discriminate].
  intros Hg.
  destruct (from_first_open_some _ _ Hs) as (pre & rest & -> & -> & Hpre).
  destruct (upto_last_close_some _ _ Hg) as (q & post & Hsplit & -> & Hpost).
  destruct q as [|c mid]; [discriminate|].
  injection Hsplit as <- Hrest.
  exists pre, mid, post. repeat split; try assumption.
  cbn [append]. now rewrite Hrest.
Qed.

Lemma from_first_open_keeps (pre rest s : string) :
  from_first_open (pre ++ String "{" rest) = Some s ->
  exists x, s = x ++ String "{" rest.
Proof.
  induction pre as [|c pre IH]; simpl.
  - intros [= <-]. now exists "".
  - destruct (Ascii.eqb c "{").
    + intros [= <-]. now exists (String c pre).
    + exact IH.
Qed.

Lemma from_first_open_none (text : string) :
  from_first_open text = None -> contains "{" text = false.
Proof.
  induction text as [|c text IH]; [reflexivity|].
  cbn [from_first_open]. destruct (Ascii.eqb c "{") eqn:Hc; [discriminate|].
  intros H. rewrite contains_char_cons, Hc. now apply IH.
Qed.

Lemma re_search_braces_none_inv (text : string) :
  re_search_braces text = None -> no_brace_delimited text.
Proof.
  intros E pre mid post Ht. subst text. unfold re_search_braces in E.
  cbn [append] in E.
  destruct (from_first_open (pre ++ String "{" (mid ++ String "}" post)))
    as [s|] eqn:Hs.
  - destruct (from_first_open_keeps _ _ _ Hs) as [x ->].
    apply upto_last_close_none_inv in E.
    assert (contains "}" (x ++ String "{" (mid ++ String "}" post)) = true).
    { apply contains_iff. exists (x ++ String "{" mid), post.
      rewrite app_assoc_s. reflexivity. }
    congruence.
  - apply from_first_open_none in Hs.
    assert (contains "{" (pre ++ String "{" (mid ++ String "}" post)) = true).
    { apply contains_iff. now exists pre, (mid ++ String "}" post). }
    congruence.
Qed.

Lemma re_search_braces_none (text : string) :
  no_brace_delimited text -> re_search_braces text = None.
Proof.
  intros H. destruct (re_search_braces text) as [g|] eqn:E; [|reflexivity].
  apply re_search_braces_some in E as (pre & mid & post & Ht & -> & _).
  destruct (H pre mid post). rewrite Ht. cbn [append].
  now rewrite app_assoc_s.
Qed.

(* ------------------------------------------------------------------ *)
(** ** Running computations step by step *)

Lemma bind_ok {A B} (m : M A) (k : A -> M B) (st st' : State) (a : A) :
  m st = (Ok a, st') -> bind m k st = k a st'.
Proof. intros H. unfold bind. now rewrite H. Qed.

Lemma bind_err {A B} (m : M A) (k : A -> M B) (st st' : State) (e : exn) :
  m st = (Err e, st') -> bind m k st = (Err e, st').
Proof. intros H. unfold bind. now rewrite H. Qed.

Lemma get_dict (d : list (string * value)) (key : string) (default : value)
    (st : State) :
  get (VDict d) key default st
  = (Ok (match lookup key d with Some x => x | None => default end), st).
Proof. reflexivity. Qed.

Lemma network_calls_app (a b : list event) :
  network_calls (a ++ b) = (network_calls a ++ network_calls b)%list.
Proof. apply filter_app. Qed.

(** ** The three gated operations in mock mode *)

Section MockMode.

Variable cfg : Config.
Variable W : World.
Hypothesis Hmock : mock cfg = true.

Lemma create_event_mock (title desc s e : value) (st : State) :
  create_event cfg W title desc s e st
  = (Ok mock_ack,
     after st [EvLog ("[MOCK] Creating event '" ++ py_str W title ++ "' from "
                      ++ py_str W s ++ " to " ++ py_str W e)]).
Proof. unfold create_event. rewrite Hmock. reflexivity. Qed.

Lemma get_events_mock (s e : value) (st : State) :
  get_events cfg W s e st
  = (Ok (mock_events s e),
     after st [EvLog ("[MOCK] Retrieving events between " ++ py_str W s
                      ++ " and " ++ py_str W e)]).
Proof. unfold get_events. rewrite Hmock. reflexivity. Qed.

Lemma interpret_mock_create (message : string) (st : State) :
  (contains "create" (lower message) || contains "add" (lower message))%bool
  = true ->
  interpret_user_request cfg W message st
  = (Ok (canned_create (now W (ticks st)) (now W (S (ticks st)))),
     after_two_readings st [EvLog "[MOCK] Interpreting user message via OpenAI"]).
Proof.
  intros H. unfold interpret_user_request. rewrite Hmock.
  unfold bind at 1. cbn [log_info emit]. rewrite H. reflexivity.
Qed.

Lemma interpret_mock_get (message : string) (st : State) :
  (contains "create" (lower message) || contains "add" (lower message))%bool
  = false ->
  interpret_user_request cfg W message st
  = (Ok (canned_get (now W (ticks st)) (now W (S (ticks st)))),
     after_two_readings st [EvLog "[MOCK] Interpreting user message via OpenAI"]).
Proof.
  intros H. unfold interpret_user_request. rewrite Hmock.
  unfold bind at 1. cbn [log_info emit]. rewrite H. reflexivity.
Qed.

End MockMode.

(** ** The intent interpreter in live mode *)

Lemma interpret_live (cfg : Config) (W : World) (message : string)
    (st : State) (content : option string) :
  mock cfg = false ->
  chat_create W (chat_request_for cfg message) = Ok content ->
  interpret_user_request cfg W message st
  = try_except (json_loads_py W content)
      (bind (re_search content)
         (fun m => match m with
                   | Some group1 => json_loads_py W (Some group1)
                   | None => ret (VDict [])
                   end))
      (after st [EvChat (chat_request_for cfg message)]).
Proof.
  intros Hlive Hchat. unfold interpret_user_request. rewrite Hlive.
  unfold bind at 1, chat_completion. unfold bind at 1. cbn [emit lift].
  rewrite Hchat. reflexivity.
Qed.

(** ** The main workflow, branch by branch *)

Section Workflow.

Variable cfg : Config.
Variable W : World.
Variable user_message : string.
Variable st st1 : State.
Variable d : list (string * value).

Hypothesis Hintent :
  interpret_user_request cfg W user_message
    (after st [EvLog ("🤖 Received message: " ++ user_message)])
  = (Ok (VDict d), st1).

Lemma run_agent_create :
  lookup "action" d = Some (VStr "create") ->
  run_agent cfg W user_message st
  = bind (create_event cfg W (title_of d)
            (match lookup "event_description" d with
             | Some x => x
             | None => VStr ""
             end)
            (field d "start_date") (field d "end_date"))
      (fun result =>
         bind (get result "htmlLink" VNone)
           (fun link =>
              ret ("✅ Event '" ++ py_str W (title_of d)
                   ++ "' created successfully!" ++ nl ++ py_str W link)))
      st1.
Proof.
  intros Ha. unfold run_agent. unfold bind at 1. cbn [log_info emit].
  fold (after st [EvLog ("🤖 Received message: " ++ user_message)]).
  rewrite (bind_ok _ _ _ _ _ Hintent).
  unfold bind at 1. rewrite get_dict, Ha. cbn [eq_str String.eqb].
  reflexivity.
Qed.

Lemma run_agent_get :
  lookup "action" d = Some (VStr "get") ->
  run_agent cfg W user_message st
  = bind (get_events cfg W (field d "start_date") (field d "end_date"))
      (fun events =>
         if negb (truthy events) then ret no_events
         else bind (iterate events)
                (for_each (add_bullet W (field d "start_date")) events_header))
      st1.
Proof.
  intros Ha. unfold run_agent. unfold bind at 1. cbn [log_info emit].
  fold (after st [EvLog ("🤖 Received message: " ++ user_message)]).
  rewrite (bind_ok _ _ _ _ _ Hintent).
  unfold bind at 1. rewrite get_dict, Ha.
  reflexivity.
Qed.

Lemma run_agent_unrecognized :
  lookup "action" d = None ->
  run_agent cfg W user_message st = (Ok greeting, st1).
Proof.
  intros Ha. unfold run_agent. unfold bind at 1. cbn [log_info emit].
  fold (after st [EvLog ("🤖 Received message: " ++ user_message)]).
  rewrite (bind_ok _ _ _ _ _ Hintent).
  unfold bind at 1. rewrite get_dict, Ha. reflexivity.
Qed.

End Workflow.

(* ------------------------------------------------------------------ *)
(** ** Configuration *)

Lemma nonempty_false_iff (s : string) : nonempty s = false <-> s = "".
Proof.
  unfold nonempty. rewrite negb_false_iff. apply String.eqb_eq.
Qed.

Lemma getenv_empty_iff (env : environ) (name : string) :
  getenv env name "" = "" <-> blank env name.
Proof.
  unfold getenv, blank. destruct (env name) as [v|].
  - split; [intros ->; now right | intros [H|H]; congruence].
  - split; [now left | reflexivity].
Qed.

(** C3. [Config.load_from_env] is a total function of the environment: it
    always returns a configuration.  Its mock flag is true exactly when
    one of OPENAI_API_KEY, GOOGLE_API_TOKEN and CALENDAR_ID is absent or
    empty; an absent TIMEZONE gives ["Europe/Paris"], and no setting of
    TIMEZONE (absent, empty or any text) changes the mock flag. *)
Theorem load_from_env_mock_iff_blank (env : environ) :
  (mock (load_from_env env) = true <->
   blank env "OPENAI_API_KEY" \/ blank env "GOOGLE_API_TOKEN"
   \/ blank env "CALENDAR_ID") /\
  (env "TIMEZONE" = None -> TIMEZONE (load_from_env env) = "Europe/Paris") /\
  (forall tz : option string,
     mock (load_from_env (setenv "TIMEZONE" tz env)) = mock (load_from_env env)).
Proof.
  split; [|split].
  - unfold load_from_env. cbn [mock].
    rewrite negb_true_iff, !andb_false_iff, !nonempty_false_iff,
      !getenv_empty_iff. tauto.
  - intros H. unfold load_from_env, getenv. cbn [TIMEZONE]. now rewrite H.
  - intros tz. reflexivity.
Qed.

(* ------------------------------------------------------------------ *)
(** ** Mock mode *)

(** C1. In mock mode none of [create_event], [get_events] and
    [interpret_user_request] calls the network, whatever their arguments
    and the state they start from: [create_event] returns the fixed
    acknowledgment, [get_events] the two fixed events (echoing the range
    asked for), and [interpret_user_request] one of the two canned
    intents, built from two readings of the clock. *)
Theorem mock_mode_makes_no_network_call (cfg : Config) (W : World) :
  mock cfg = true ->
  (forall title desc s e st, exists st',
      create_event cfg W title desc s e st = (Ok mock_ack, st') /\
      network_calls (trace st') = network_calls (trace st)) /\
  (forall s e st, exists st',
      get_events cfg W s e st = (Ok (mock_events s e), st') /\
      network_calls (trace st') = network_calls (trace st)) /\
  (forall message st, exists intent st',
      interpret_user_request cfg W message st = (Ok intent, st') /\
      (intent = canned_create (now W (ticks st)) (now W (S (ticks st))) \/
       intent = canned_get (now W (ticks st)) (now W (S (ticks st)))) /\
      network_calls (trace st') = network_calls (trace st)).
Proof.
  intros Hmock.
  assert (Hlog : forall st line,
             network_calls (trace st ++ [EvLog line]) = network_calls (trace st)).
  { intros st line. rewrite network_calls_app. apply app_nil_r. }
  split; [|split].
  - intros title desc s e st. eexists. split.
    + now apply create_event_mock.
    + apply Hlog.
  - intros s e st. eexists. split.
    + now apply get_events_mock.
    + apply Hlog.
  - intros message st.
    destruct (contains "create" (lower message)
              || contains "add" (lower message))%bool eqn:Hc.
    + do 2 eexists. split; [now apply interpret_mock_create|].
      split; [now left | apply Hlog].
    + do 2 eexists. split; [now apply interpret_mock_get|].
      split; [now right | apply Hlog].
Qed.

(** C9. In mock mode, ["Add a meeting with Sarah next Monday 2pm"] is
    read as an intent with action ["create"] and title ["Team Meeting"];
    the calendar client returns the fixed acknowledgment; and the reply
    starts with ["✅ Event 'Team Meeting' created successfully!"]. *)
Theorem mock_add_meeting_scenario (cfg : Config) (W : World) (st : State) :
  mock cfg = true ->
  let message := "Add a meeting with Sarah next Monday 2pm" in
  exists d st1 st2 rest,
    interpret_user_request cfg W message
      (after st [EvLog ("🤖 Received message: " ++ message)])
    = (Ok (VDict d), st1) /\
    lookup "action" d = Some (VStr "create") /\
    lookup "event_title" d = Some (VStr "Team Meeting") /\
    create_event cfg W (VStr "Team Meeting") (field d "event_description")
      (field d "start_date") (field d "end_date") st1
    = (Ok mock_ack, st2) /\
    run_agent cfg W message st
    = (Ok ("✅ Event 'Team Meeting' created successfully!" ++ rest), st2).
Proof.
  intros Hmock message.
  assert (Hi := interpret_mock_create cfg W Hmock message
                  (after st [EvLog ("🤖 Received message: " ++ message)])
                  eq_refl).
  do 3 eexists. exists (nl ++ "https://calendar.google.com/mock/event").
  split; [exact Hi|].
  split; [reflexivity|]. split; [reflexivity|].
  split; [now apply create_event_mock|].
  rewrite (run_agent_create cfg W message st _ _ Hi eq_refl).
  erewrite bind_ok by (now apply create_event_mock).
  reflexivity.
Qed.

(** C2.  What the code does on ["Show me my events tomorrow"] with no
    credentials set: the message is read as the canned ["get"] intent and
    the calendar client returns the two fixed events, but their ["start"]
    is the requested start itself, a string, where the reply formatter
    expects a dict holding ["dateTime"]; [.get] on that string raises
    [AttributeError] at the first bullet line, so no reply is produced. *)
Theorem mock_show_events_raises (W : World) (st : State) :
  let message := "Show me my events tomorrow" in
  let t1 := now W (ticks st) in
  let t2 := now W (S (ticks st)) in
  let start := VStr (isoformat t1) in
  let end_ := VStr (isoformat (t2 + timedelta 1 0)) in
  exists st1 st2,
    interpret_user_request mock_cfg W message
      (after st [EvLog ("🤖 Received message: " ++ message)])
    = (Ok (canned_get t1 t2), st1) /\
    get_events mock_cfg W start end_ st1 = (Ok (mock_events start end_), st2) /\
    run_agent mock_cfg W message st = (Err AttributeError, st2).
Proof.
  intros message t1 t2 start end_.
  assert (Hi := interpret_mock_get mock_cfg W eq_refl message
                  (after st [EvLog ("🤖 Received message: " ++ message)])
                  eq_refl).
  do 2 eexists. split; [exact Hi|].
  split; [now apply get_events_mock|].
  rewrite (run_agent_get mock_cfg W message st _ _ Hi eq_refl).
  erewrite bind_ok by (now apply get_events_mock).
  reflexivity.
Qed.

Lemma occurs_test (message : string) :
  (contains "create" (lower message) || contains "add" (lower message))%bool
  = true <->
  occurs_ignoring_case "create" message \/ occurs_ignoring_case "add" message.
Proof.
  rewrite orb_true_iff.
  rewrite <- (contains_lower_iff "create"), <- (contains_lower_iff "add").
  reflexivity.
Qed.

(** C4, as the code has it. In mock mode, for every message in which
    ["create"] or ["add"] occurs when case is ignored,
    [interpret_user_request] returns a mapping whose action is
    ["create"] and whose title and description are not empty.  Its start
    date is 1 day 10 hours after a first reading of the clock and its end
    date 1 day 11 hours after a second reading, taken right after the
    first.  So the end is strictly after the start exactly when the
    second reading is less than one hour before the first, which is the
    case whenever the clock has not been set back in between. *)
Theorem mock_interpret_create_intent (cfg : Config) (W : World)
    (message : string) (st : State) :
  mock cfg = true ->
  occurs_ignoring_case "create" message \/ occurs_ignoring_case "add" message ->
  let t1 := now W (ticks st) in
  let t2 := now W (S (ticks st)) in
  let ts := t1 + timedelta 1 10 in
  let te := t2 + timedelta 1 11 in
  exists d st' title desc,
    interpret_user_request cfg W message st = (Ok (VDict d), st') /\
    lookup "action" d = Some (VStr "create") /\
    lookup "event_title" d = Some (VStr title) /\ title <> "" /\
    lookup "event_description" d = Some (VStr desc) /\ desc <> "" /\
    lookup "start_date" d = Some (VStr (isoformat ts)) /\
    lookup "end_date" d = Some (VStr (isoformat te)) /\
    ((ts < te)%Z <-> (t1 - timedelta 0 1 < t2)%Z) /\
    ((t1 <= t2)%Z -> (ts < te)%Z).
Proof.
  intros Hmock Hocc t1 t2 ts te. apply occurs_test in Hocc.
  do 2 eexists. exists "Team Meeting", "Discuss ongoing projects".
  split; [now apply interpret_mock_create|].
  repeat (split; [first [reflexivity | discriminate]|]).
  subst ts te. unfold timedelta. lia.
Qed.

(** C5, as the code has it. In mock mode, for every message in which
    neither ["create"] nor ["add"] occurs when case is ignored,
    [interpret_user_request] returns a mapping whose action is ["get"],
    whose start date is the first of two consecutive readings of the
    clock and whose end date is exactly 24 hours after the second
    reading. *)
Theorem mock_interpret_get_intent (cfg : Config) (W : World)
    (message : string) (st : State) :
  mock cfg = true ->
  ~ occurs_ignoring_case "create" message ->
  ~ occurs_ignoring_case "add" message ->
  exists d st',
    interpret_user_request cfg W message st = (Ok (VDict d), st') /\
    lookup "action" d = Some (VStr "get") /\
    lookup "start_date" d = Some (VStr (isoformat (now W (ticks st)))) /\
    lookup "end_date" d
    = Some (VStr (isoformat (now W (S (ticks st)) + timedelta 1 0))) /\
    ticks st' = S (S (ticks st)).
Proof.
  intros Hmock Hc Ha.
  assert (Ht : (contains "create" (lower message)
                || contains "add" (lower message))%bool = false).
  { destruct (contains "create" (lower message)
              || contains "add" (lower message))%bool eqn:E; [|reflexivity].
    apply occurs_test in E. tauto. }
  do 2 eexists. split; [now apply interpret_mock_get|].
  repeat split.
Qed.

(* ------------------------------------------------------------------ *)
(** ** Live mode *)

(** C6, as the code has it. In live mode, with [text] the text the
    model sent:
    - when [text] decodes, its value is the intent;
    - when it does not, the stretch of [text] from its first opening
      brace to its last closing brace is decoded instead, and the
      outcome of that decoding, a value or a decoding error that nothing
      catches, is the outcome of the call;
    - when it does not and [text] has no brace-delimited stretch, the
      intent is the empty mapping, and [run_agent] answers with the fixed
      greeting instead of failing. *)
Theorem live_interpret_parsing_policy (cfg : Config) (W : World)
    (message text : string) (st : State) :
  mock cfg = false ->
  chat_create W (chat_request_for cfg message) = Ok (Some text) ->
  let st1 := after st [EvChat (chat_request_for cfg message)] in
  (forall v, json_loads W text = Some v ->
     interpret_user_request cfg W message st = (Ok v, st1)) /\
  (json_loads W text = None ->
   forall g, first_brace_delimited text g ->
     interpret_user_request cfg W message st
     = (match json_loads W g with
        | Some v => Ok v
        | None => Err JSONDecodeError
        end, st1)) /\
  (json_loads W text = None -> no_brace_delimited text ->
     interpret_user_request cfg W message st = (Ok (VDict []), st1) /\
     forall st0,
       st = after st0 [EvLog ("🤖 Received message: " ++ message)] ->
       run_agent cfg W message st0 = (Ok greeting, st1)).
Proof.
  intros Hlive Hchat st1.
  rewrite (interpret_live cfg W message st (Some text) Hlive Hchat).
  fold st1. unfold try_except, json_loads_py.
  split; [|split].
  - intros v Hv. now rewrite Hv.
  - intros Hnone g Hg. rewrite Hnone. cbn [raise].
    unfold bind, re_search. cbn [ret].
    rewrite (re_search_braces_first _ _ Hg).
    now destruct (json_loads W g).
  - intros Hnone Hno. rewrite Hnone. cbn [raise].
    unfold bind, re_search. cbn [ret].
    rewrite (re_search_braces_none _ Hno).
    split; [reflexivity|].
    intros st0 Hst0. subst st.
    apply (run_agent_unrecognized cfg W message st0 st1 []); [|reflexivity].
    rewrite (interpret_live cfg W message _ (Some text) Hlive Hchat).
    fold st1. unfold try_except, json_loads_py. rewrite Hnone. cbn [raise].
    unfold bind, re_search. cbn [ret].
    now rewrite (re_search_braces_none _ Hno).
Qed.

Lemma create_event_refused (cfg : Config) (W : World)
    (title desc s e : value) (st : State) (r : response) :
  mock cfg = false ->
  requests_post W (events_url cfg) (create_headers cfg)
    (create_payload cfg title desc s e) = Ok r ->
  ok r = false ->
  create_event cfg W title desc s e st
  = (Err (Exception_ ("Google Calendar API error: " ++ text r)),
     after st [EvPost (events_url cfg) (create_headers cfg)
                      (create_payload cfg title desc s e)]).
Proof.
  intros Hlive Hpost Hok. unfold create_event. rewrite Hlive.
  unfold bind at 1, post. unfold bind at 1. cbn [emit lift].
  rewrite Hpost, Hok. reflexivity.
Qed.

Lemma get_events_refused (cfg : Config) (W : World)
    (s e : value) (st : State) (r : response) :
  mock cfg = false ->
  requests_get W (events_url cfg) (list_headers cfg) (list_params s e) = Ok r ->
  ok r = false ->
  get_events cfg W s e st
  = (Err (Exception_ ("Failed to retrieve events: " ++ text r)),
     after st [EvGet (events_url cfg) (list_headers cfg) (list_params s e)]).
Proof.
  intros Hlive Hget Hok. unfold get_events. rewrite Hlive.
  unfold bind at 1, http_get. unfold bind at 1. cbn [emit lift].
  rewrite Hget, Hok. reflexivity.
Qed.

(** C7. In live mode a response of the calendar provider that is not a
    success makes [create_event] and [get_events] raise a plain
    [Exception] whose message ends with the body of the response, after
    exactly one request.  Nothing catches it: [run_agent] fails with
    whatever exception its calendar call raised, in the state that call
    left, and [main] fails with whatever [run_agent] raised, printing
    nothing. *)
Theorem calendar_failure_propagates (cfg : Config) (W : World) :
  mock cfg = false ->
  (forall title desc s e st r,
     requests_post W (events_url cfg) (create_headers cfg)
       (create_payload cfg title desc s e) = Ok r ->
     ok r = false ->
     create_event cfg W title desc s e st
     = (Err (Exception_ ("Google Calendar API error: " ++ text r)),
        after st [EvPost (events_url cfg) (create_headers cfg)
                         (create_payload cfg title desc s e)])) /\
  (forall s e st r,
     requests_get W (events_url cfg) (list_headers cfg) (list_params s e)
     = Ok r ->
     ok r = false ->
     get_events cfg W s e st
     = (Err (Exception_ ("Failed to retrieve events: " ++ text r)),
        after st [EvGet (events_url cfg) (list_headers cfg)
                        (list_params s e)])) /\
  (forall message st st1 st2 d err,
     interpret_user_request cfg W message
       (after st [EvLog ("🤖 Received message: " ++ message)])
     = (Ok (VDict d), st1) ->
     lookup "action" d = Some (VStr "create") ->
     create_event cfg W (title_of d)
       (match lookup "event_description" d with
        | Some x => x
        | None => VStr ""
        end)
       (field d "start_date") (field d "end_date") st1 = (Err err, st2) ->
     run_agent cfg W message st = (Err err, st2)) /\
  (forall message st st1 st2 d err,
     interpret_user_request cfg W message
       (after st [EvLog ("🤖 Received message: " ++ message)])
     = (Ok (VDict d), st1) ->
     lookup "action" d = Some (VStr "get") ->
     get_events cfg W (field d "start_date") (field d "end_date") st1
     = (Err err, st2) ->
     run_agent cfg W message st = (Err err, st2)) /\
  (forall args st st' err,
     run_agent cfg W (user_input_of args) st = (Err err, st') ->
     main cfg W args st = (Err err, st')).
Proof.
  intros Hlive. repeat split.
  - intros. now apply create_event_refused.
  - intros. now apply get_events_refused.
  - intros message st st1 st2 d err Hi Ha Hc.
    rewrite (run_agent_create cfg W message st st1 d Hi Ha).
    now apply bind_err.
  - intros message st st1 st2 d err Hi Ha Hg.
    rewrite (run_agent_get cfg W message st st1 d Hi Ha).
    now apply bind_err.
  - intros args st st' err Hr. unfold main. now apply bind_err.
Qed.

(* ------------------------------------------------------------------ *)
(** ** Replies *)

Lemma add_bullet_line (W : World) (start : value) (reply : string)
    (ev : list (string * value)) (st : State) :
  start_is_dict ev ->
  add_bullet W start reply (VDict ev) st
  = (Ok (reply ++ bullet_line W start ev), st).
Proof.
  intros Hst. unfold add_bullet, bullet_line, shown_start.
  unfold bind at 1. rewrite get_dict. unfold bind at 1. rewrite get_dict.
  destruct Hst as [-> | [sd ->]]; reflexivity.
Qed.

(** The loop over a listing of well-formed events adds one bullet line
    per event, in the order of the listing. *)
Lemma listing_lines (W : World) (start : value)
    (evs : list (list (string * value))) (reply : string) (st : State) :
  Forall start_is_dict evs ->
  for_each (add_bullet W start) reply (map VDict evs) st
  = (Ok (reply ++ String.concat "" (map (bullet_line W start) evs)), st).
Proof.
  intros H. revert reply. induction H as [|ev evs Hev _ IH]; intros reply.
  - cbn. now rewrite app_nil_r_s.
  - cbn [map for_each].
    rewrite (bind_ok _ _ _ _ _ (add_bullet_line W start reply ev st Hev)).
    rewrite IH, app_assoc_s. f_equal. f_equal. f_equal.
    cbn [String.concat]. destruct evs; [now rewrite app_nil_r_s|reflexivity].
Qed.




(** C8. When the action of the intent is ["get"] and the calendar client
    returns an empty list, the reply of [run_agent] is exactly
    ["No events found in that range."]. *)
Theorem empty_listing_reply (cfg : Config) (W : World) (message : string)
    (st st1 st2 : State) (d : list (string * value)) :
  interpret_user_request cfg W message
    (after st [EvLog ("🤖 Received message: " ++ message)])
  = (Ok (VDict d), st1) ->
  lookup "action" d = Some (VStr "get") ->
  get_events cfg W (field d "start_date") (field d "end_date") st1
  = (Ok (VList []), st2) ->
  run_agent cfg W message st = (Ok "No events found in that range.", st2).
Proof.
  intros Hi Ha Hg.
  rewrite (run_agent_get cfg W message st st1 d Hi Ha).
  now rewrite (bind_ok _ _ _ _ _ Hg).
Qed.


(* ------------------------------------------------------------------ *)
(** ** The properties at concrete inputs *)

Lemma load_from_env_mock_iff_blank_witness :
  env_of [] "TIMEZONE" = None /\
  TIMEZONE (load_from_env (env_of [])) = "Europe/Paris" /\
  mock (load_from_env (setenv "TIMEZONE" (Some "UTC") (env_of [])))
  = mock (load_from_env (env_of [])).
Proof.
  destruct (load_from_env_mock_iff_blank (env_of [])) as (_ & Htz & Hmock).
  split; [reflexivity|]. split; [apply Htz; reflexivity | apply Hmock].
Defined.

Lemma mock_mode_makes_no_network_call_witness :
  mock mock_cfg = true /\
  exists st',
    get_events mock_cfg (offline_world 1) (VStr "2024-05-01T00:00:00")
      (VStr "2024-05-02T00:00:00") initial
    = (Ok (mock_events (VStr "2024-05-01T00:00:00")
             (VStr "2024-05-02T00:00:00")), st') /\
    network_calls (trace st') = network_calls (trace initial).
Proof.
  split; [reflexivity|].
  destruct (mock_mode_makes_no_network_call mock_cfg (offline_world 1) eq_refl)
    as (_ & Hget & _).
  apply Hget.
Defined.

Lemma mock_add_meeting_scenario_witness :
  mock mock_cfg = true /\
  exists st2 rest,
    run_agent mock_cfg (offline_world 1)
      "Add a meeting with Sarah next Monday 2pm" initial
    = (Ok ("✅ Event 'Team Meeting' created successfully!" ++ rest), st2).
Proof.
  split; [reflexivity|].
  destruct (mock_add_meeting_scenario mock_cfg (offline_world 1) initial eq_refl)
    as (d & st1 & st2 & rest & _ & _ & _ & _ & Hrun).
  exists st2, rest. exact Hrun.
Defined.

Lemma mock_interpret_create_intent_witness :
  mock mock_cfg = true /\
  occurs_ignoring_case "add" "Please ADD lunch with Bob" /\
  exists d st',
    interpret_user_request mock_cfg (offline_world 1)
      "Please ADD lunch with Bob" initial = (Ok (VDict d), st') /\
    lookup "action" d = Some (VStr "create") /\
    lookup "start_date" d = Some (VStr "2023-11-16T08:13:20") /\
    lookup "end_date" d = Some (VStr "2023-11-16T09:13:20.000001") /\
    (now (offline_world 1) 0 + timedelta 1 10
     < now (offline_world 1) 1 + timedelta 1 11)%Z.
Proof.
  assert (Hocc : occurs_ignoring_case "add" "Please ADD lunch with Bob").
  { apply (contains_lower_iff "add"). vm_compute. reflexivity. }
  split; [reflexivity|]. split; [exact Hocc|].
  destruct (mock_interpret_create_intent mock_cfg (offline_world 1)
              "Please ADD lunch with Bob" initial eq_refl (or_intror Hocc))
    as (d & st' & title & desc & Hi & Ha & _ & _ & _ & _ & Hs & He & _ & Hlt).
  exists d, st'.
  split; [exact Hi|]. split; [exact Ha|]. split; [exact Hs|].
  split; [exact He|]. apply Hlt. vm_compute. discriminate.
Defined.

(** C4 as stated fails: when the clock is set back by one hour between
    the two readings, the start date and the end date of the "create"
    intent are the same text, 2023-11-16T08:13:20, so the end date is
    not after the start date, whatever order is put on dates. *)
Lemma create_intent_end_not_after_start :
  mock mock_cfg = true /\
  occurs_ignoring_case "add" "Add lunch with Bob" /\
  (now rewinding_world 0 + timedelta 1 10
   = now rewinding_world 1 + timedelta 1 11)%Z /\
  ~ (exists d st' s e,
       interpret_user_request mock_cfg rewinding_world "Add lunch with Bob"
         initial = (Ok (VDict d), st') /\
       lookup "start_date" d = Some (VStr s) /\
       lookup "end_date" d = Some (VStr e) /\
       s <> e).
Proof.
  split; [reflexivity|]. split.
  { apply (contains_lower_iff "add"). vm_compute. reflexivity. }
  split; [reflexivity|].
  intros (d & st' & s & e & Hi & Hs & He & Hne).
  vm_compute in Hi. injection Hi as <- _.
  vm_compute in Hs, He. congruence.
Qed.

Lemma no_create_in_question : ~ occurs_ignoring_case "create" "What is on today?".
Proof.
  intros H. apply (contains_lower_iff "create") in H. vm_compute in H.
  discriminate H.
Defined.

Lemma no_add_in_question : ~ occurs_ignoring_case "add" "What is on today?".
Proof.
  intros H. apply (contains_lower_iff "add") in H. vm_compute in H.
  discriminate H.
Defined.

Lemma mock_interpret_get_intent_witness :
  mock mock_cfg = true /\
  ~ occurs_ignoring_case "create" "What is on today?" /\
  ~ occurs_ignoring_case "add" "What is on today?" /\
  exists d st',
    interpret_user_request mock_cfg (offline_world 1) "What is on today?"
      initial = (Ok (VDict d), st') /\
    lookup "action" d = Some (VStr "get") /\
    lookup "start_date" d = Some (VStr "2023-11-14T22:13:20") /\
    lookup "end_date" d = Some (VStr "2023-11-15T22:13:20.000001").
Proof.
  split; [reflexivity|].
  split; [exact no_create_in_question|]. split; [exact no_add_in_question|].
  destruct (mock_interpret_get_intent mock_cfg (offline_world 1)
              "What is on today?" initial eq_refl
              no_create_in_question no_add_in_question)
    as (d & st' & Hi & Ha & Hs & He & _).
  exists d, st'. repeat split; assumption.
Defined.

(** C5 as stated fails: with a clock that advances by one microsecond
    between its two readings, the end date of the "get" intent is not the
    ISO form of the time of the call plus 24 hours. *)
Lemma get_intent_end_not_24h_after_call :
  mock mock_cfg = true /\
  ~ occurs_ignoring_case "create" "What is on today?" /\
  ~ occurs_ignoring_case "add" "What is on today?" /\
  ~ (exists d st',
       interpret_user_request mock_cfg (offline_world 1) "What is on today?"
         initial = (Ok (VDict d), st') /\
       lookup "action" d = Some (VStr "get") /\
       lookup "start_date" d
       = Some (VStr (isoformat (now (offline_world 1) (ticks initial)))) /\
       lookup "end_date" d
       = Some (VStr (isoformat (now (offline_world 1) (ticks initial)
                                + timedelta 1 0)))).
Proof.
  split; [reflexivity|].
  split; [exact no_create_in_question|]. split; [exact no_add_in_question|].
  intros (d & st' & Hi & _ & _ & He).
  vm_compute in Hi. injection Hi as <- _.
  vm_compute in He. discriminate He.
Qed.

Lemma live_interpret_parsing_policy_witness :
  mock live_cfg = false /\
  chat_create chatty_world (chat_request_for live_cfg "What is on in May?")
  = Ok (Some chatty_text) /\
  json_loads chatty_world chatty_text = None /\
  first_brace_delimited chatty_text get_intent_text /\
  interpret_user_request live_cfg chatty_world "What is on in May?" initial
  = (Ok get_intent,
     after initial [EvChat (chat_request_for live_cfg "What is on in May?")]).
Proof.
  assert (Hg : first_brace_delimited chatty_text get_intent_text).
  { apply re_search_braces_some. vm_compute. reflexivity. }
  split; [reflexivity|]. split; [reflexivity|]. split; [reflexivity|].
  split; [exact Hg|].
  destruct (live_interpret_parsing_policy live_cfg chatty_world
              "What is on in May?" chatty_text initial eq_refl eq_refl)
    as (_ & Hfallback & _).
  exact (Hfallback eq_refl get_intent_text Hg).
Defined.

(** C6 as stated fails: when the model sends two JSON objects in one
    reply, the whole reply does not decode, its first brace-delimited
    substring is the first object, which does decode, and yet
    [interpret_user_request] raises [JSONDecodeError]: it has decoded the
    stretch from the first opening brace to the last closing brace,
    which spans both objects. *)
Lemma two_objects_first_not_decoded :
  mock live_cfg = false /\
  chat_create two_objects_world (chat_request_for live_cfg "What is on in May?")
  = Ok (Some two_objects_text) /\
  json_loads two_objects_world two_objects_text = None /\
  spec_first_brace_delimited two_objects_text = Some get_intent_text /\
  json_loads two_objects_world get_intent_text = Some get_intent /\
  re_search_braces two_objects_text = Some two_objects_text /\
  interpret_user_request live_cfg two_objects_world "What is on in May?" initial
  = (Err JSONDecodeError,
     after initial [EvChat (chat_request_for live_cfg "What is on in May?")]) /\
  ~ (exists st',
       interpret_user_request live_cfg two_objects_world "What is on in May?"
         initial = (Ok get_intent, st')).
Proof.
  assert (Hrun : interpret_user_request live_cfg two_objects_world
                   "What is on in May?" initial
                 = (Err JSONDecodeError,
                    after initial
                      [EvChat (chat_request_for live_cfg "What is on in May?")]))
    by (vm_compute; reflexivity).
  split; [reflexivity|]. split; [reflexivity|].
  split; [vm_compute; reflexivity|]. split; [vm_compute; reflexivity|].
  split; [vm_compute; reflexivity|]. split; [vm_compute; reflexivity|].
  split; [exact Hrun|].
  intros [st' H]. rewrite Hrun in H. discriminate H.
Qed.

Lemma calendar_failure_propagates_witness :
  mock live_cfg = false /\
  exists st',
    main live_cfg refusing_world ["Add"; "lunch"] initial
    = (Err (Exception_ "Google Calendar API error: quotaExceeded"), st') /\
    network_calls (trace st')
    = [EvChat (chat_request_for live_cfg "Add lunch");
       EvPost (events_url live_cfg) (create_headers live_cfg)
         (create_payload live_cfg (VStr "Untitled Event") (VStr "")
            (VStr "2024-05-01T09:00:00") (VStr "2024-05-01T10:00:00"))].
Proof.
  split; [reflexivity|].
  destruct (calendar_failure_propagates live_cfg refusing_world eq_refl)
    as (Hcreate & _ & Hrun & _ & Hmain).
  eexists. split.
  - apply Hmain.
    eapply (Hrun "Add lunch" initial _ _
              [("action", VStr "create"); ("event_title", VStr "");
               ("start_date", VStr "2024-05-01T09:00:00");
               ("end_date", VStr "2024-05-01T10:00:00")]).
    + reflexivity.
    + reflexivity.
    + apply (Hcreate _ _ _ _ _ refusal); reflexivity.
  - reflexivity.
Defined.

Lemma empty_listing_reply_witness :
  exists st1 st2,
    interpret_user_request live_cfg listing_world "What is on in May?"
      (after initial [EvLog ("🤖 Received message: " ++ "What is on in May?")])
    = (Ok get_intent, st1) /\
    get_events live_cfg listing_world (VStr "2024-05-01T00:00:00")
      (VStr "2024-05-02T00:00:00") st1 = (Ok (VList []), st2) /\
    run_agent live_cfg listing_world "What is on in May?" initial
    = (Ok "No events found in that range.", st2).
Proof.
  do 2 eexists.
  assert (Hi : interpret_user_request live_cfg listing_world
                 "What is on in May?"
                 (after initial
                    [EvLog ("🤖 Received message: " ++ "What is on in May?")])
               = (Ok get_intent,
                  after initial
                    [EvLog ("🤖 Received message: " ++ "What is on in May?");
                     EvChat (chat_request_for live_cfg "What is on in May?")]))
    by reflexivity.
  split; [exact Hi|].
  split; [reflexivity|].
  exact (empty_listing_reply live_cfg listing_world "What is on in May?"
           initial _ _ _ Hi eq_refl eq_refl).
Defined.


(* ------------------------------------------------------------------ *)
(** ** The whole program in mock mode *)

Lemma after_after (st : State) (a b : list event) :
  after (after st a) b = after st (a ++ b)%list.
Proof. unfold after. cbn [ticks trace]. now rewrite <- app_assoc. Qed.

Lemma occurs_test_false (message : string) :
  (contains "create" (lower message) || contains "add" (lower message))%bool
  = false <->
  ~ occurs_ignoring_case "create" message /\
  ~ occurs_ignoring_case "add" message.
Proof.
  rewrite <- not_true_iff_false, occurs_test. tauto.
Qed.

Section MockRuns.

Variable cfg : Config.
Variable W : World.
Hypothesis Hmock : mock cfg = true.

Lemma run_agent_mock_create (message : string) (st : State) :
  (contains "create" (lower message) || contains "add" (lower message))%bool
  = true ->
  run_agent cfg W message st
  = (Ok mock_confirmation,
     after_two_readings st
       (map EvLog (mock_create_lines message (now W (ticks st))
                     (now W (S (ticks st)))))).
Proof.
  intros Ht.
  assert (Hi := interpret_mock_create cfg W Hmock message
                  (after st [EvLog ("🤖 Received message: " ++ message)]) Ht).
  rewrite (run_agent_create cfg W message st _ _ Hi eq_refl).
  erewrite bind_ok by (now apply create_event_mock).
  unfold after_two_readings, after, mock_create_lines. cbn.
  rewrite <- !app_assoc. reflexivity.
Qed.

Lemma run_agent_mock_get (message : string) (st : State) :
  (contains "create" (lower message) || contains "add" (lower message))%bool
  = false ->
  run_agent cfg W message st
  = (Err AttributeError,
     after_two_readings st
       (map EvLog (mock_get_lines message (now W (ticks st))
                     (now W (S (ticks st)))))).
Proof.
  intros Ht.
  assert (Hi := interpret_mock_get cfg W Hmock message
                  (after st [EvLog ("🤖 Received message: " ++ message)]) Ht).
  rewrite (run_agent_get cfg W message st _ _ Hi eq_refl).
  erewrite bind_ok by (now apply get_events_mock).
  unfold after_two_readings, after, mock_get_lines. cbn.
  rewrite <- !app_assoc. reflexivity.
Qed.

End MockRuns.

(** X1. In mock mode, every message in which ["create"] or ["add"] occurs
    (case ignored) gets the same reply from [run_agent]: the confirmation
    of 'Team Meeting' followed by the mock link.  The run reads the clock
    twice and leaves three log lines, nothing else. *)
Theorem mock_run_agent_confirms (cfg : Config) (W : World)
    (message : string) (st : State) :
  mock cfg = true ->
  occurs_ignoring_case "create" message \/ occurs_ignoring_case "add" message ->
  exists lines,
    length lines = 3%nat /\
    run_agent cfg W message st
    = (Ok mock_confirmation, after_two_readings st (map EvLog lines)).
Proof.
  intros Hmock Hocc. apply occurs_test in Hocc.
  eexists. split; [|now apply run_agent_mock_create]. reflexivity.
Qed.

(** X2. In mock mode, every message in which neither ["create"] nor
    ["add"] occurs makes [run_agent] raise [AttributeError]: the two
    mock events carry a string under ["start"], and the first bullet
    line calls [.get] on it.  No reply is produced for any such
    message. *)
Theorem mock_run_agent_listing_raises (cfg : Config) (W : World)
    (message : string) (st : State) :
  mock cfg = true ->
  ~ occurs_ignoring_case "create" message ->
  ~ occurs_ignoring_case "add" message ->
  exists lines,
    length lines = 3%nat /\
    run_agent cfg W message st
    = (Err AttributeError, after_two_readings st (map EvLog lines)).
Proof.
  intros Hmock Hc Ha.
  assert (Ht := proj2 (occurs_test_false message) (conj Hc Ha)).
  eexists. split; [|now apply run_agent_mock_get]. reflexivity.
Qed.


Lemma join_empty_iff (args : list string) :
  join " " args = "" <-> args = [] \/ args = [""].
Proof.
  unfold join. destruct args as [|x [|y r]]; cbn [String.concat].
  - split; [now left | reflexivity].
  - split; [intros ->; now right | intros [H|H]; [discriminate | now injection H]].
  - split.
    + destruct x; discriminate.
    + intros [H|H]; discriminate.
Qed.

(** X4. [main] never hands [run_agent] an empty message.  The command
    line counts as empty exactly when there is no argument or a single
    empty one, and the fixed default message is used then; any other
    command line is passed on as its arguments joined by spaces. *)
Theorem user_input_never_empty (args : list string) :
  user_input_of args <> "" /\
  (args = [] \/ args = [""] -> user_input_of args = default_message) /\
  (args <> [] -> args <> [""] -> user_input_of args = join " " args).
Proof.
  unfold user_input_of, nonempty.
  destruct (String.eqb (join " " args) "") eqn:E; cbn [negb].
  - apply String.eqb_eq in E. split; [discriminate|]. split; [reflexivity|].
    intros H1 H2. apply join_empty_iff in E. tauto.
  - apply String.eqb_neq in E. split; [exact E|]. split; [|reflexivity].
    intros H. apply join_empty_iff in H. contradiction.
Qed.


(* ------------------------------------------------------------------ *)
(** ** The brace pattern, both ways *)

(** X6. The search for the brace pattern finds a match exactly when the
    text has an opening brace with a closing brace somewhere after it,
    and the match is then the stretch from the first opening brace to
    the last closing brace: nothing before it holds an opening brace and
    nothing after it a closing one. *)
Theorem re_search_braces_characterised (text : string) :
  (forall g, re_search_braces text = Some g <-> first_brace_delimited text g) /\
  (re_search_braces text = None <-> no_brace_delimited text).
Proof.
  split.
  - intros g. split; [apply re_search_braces_some | apply re_search_braces_first].
  - split; [apply re_search_braces_none_inv | apply re_search_braces_none].
Qed.

(* ------------------------------------------------------------------ *)
(** ** What the interpreter hands to the workflow *)

Section Handover.

Variable cfg : Config.
Variable W : World.
Variable message : string.
Variable st st1 : State.

(** X7. An intent whose action is anything but the strings ["create"]
    and ["get"] (no action at all, another word, a number) is answered
    with the fixed greeting, and the calendar is not called: the run ends
    in the state the interpreter left. *)
Theorem unrecognized_action_greets (d : list (string * value)) :
  interpret_user_request cfg W message (after st [received message])
  = (Ok (VDict d), st1) ->
  lookup "action" d <> Some (VStr "create") ->
  lookup "action" d <> Some (VStr "get") ->
  run_agent cfg W message st = (Ok greeting, st1).
Proof.
  intros Hi Hc Hg. unfold run_agent. unfold bind at 1. cbn [log_info emit].
  fold (after st [EvLog ("🤖 Received message: " ++ message)]).
  rewrite (bind_ok _ _ _ _ _ Hi). unfold bind at 1. rewrite get_dict.
  assert (Ec : forall lit,
             lookup "action" d <> Some (VStr lit) ->
             eq_str (match lookup "action" d with
                     | Some x => x
                     | None => VNone
                     end) lit = false).
  { intros lit H. destruct (lookup "action" d) as [[| | | |s| |]|];
      try reflexivity.
    cbn [eq_str]. apply String.eqb_neq. congruence. }
  now rewrite (Ec _ Hc), (Ec _ Hg).
Qed.

(** X8. When the interpreter returns something that is not a mapping (a
    JSON array, number, string, [true] or [null] decoded from the
    model's text), [run_agent] raises [AttributeError] at
    [data.get("action")], before any calendar call. *)
Theorem non_mapping_intent_raises (v : value) :
  interpret_user_request cfg W message (after st [received message])
  = (Ok v, st1) ->
  (forall d, v <> VDict d) ->
  run_agent cfg W message st = (Err AttributeError, st1).
Proof.
  intros Hi Hv. unfold run_agent. unfold bind at 1. cbn [log_info emit].
  fold (after st [EvLog ("🤖 Received message: " ++ message)]).
  rewrite (bind_ok _ _ _ _ _ Hi). unfold bind at 1.
  destruct v; try reflexivity. now destruct (Hv entries).
Qed.

(** X9. [run_agent] has no handler around the interpreter: whatever the
    interpreter raises, [run_agent] raises, in the same state, and
    [main] after it, printing nothing. *)
Theorem interpreter_failure_propagates (err : exn) :
  interpret_user_request cfg W message (after st [received message])
  = (Err err, st1) ->
  run_agent cfg W message st = (Err err, st1) /\
  (forall args, user_input_of args = message ->
                main cfg W args st = (Err err, st1)).
Proof.
  intros Hi.
  assert (Hr : run_agent cfg W message st = (Err err, st1)).
  { unfold run_agent. unfold bind at 1. cbn [log_info emit].
    fold (after st [EvLog ("🤖 Received message: " ++ message)]).
    now rewrite (bind_err _ _ _ _ _ Hi). }
  split; [exact Hr|].
  intros args Hargs. unfold main. rewrite Hargs. now apply bind_err.
Qed.

End Handover.

(* ------------------------------------------------------------------ *)
(** ** Failures of the interpreter in live mode *)

Section LiveFailures.

Variable cfg : Config.
Variable W : World.
Variable message : string.
Variable st : State.
Hypothesis Hlive : mock cfg = false.

(** X10. In live mode, when the chat call itself raises, the parsing
    fallback does not apply: [interpret_user_request] raises the same
    exception after that one request. *)
Theorem chat_failure_not_recovered (err : exn) :
  chat_create W (chat_request_for cfg message) = Err err ->
  interpret_user_request cfg W message st
  = (Err err, after st [EvChat (chat_request_for cfg message)]).
Proof.
  intros Hchat. unfold interpret_user_request. rewrite Hlive.
  unfold bind at 1, chat_completion. unfold bind at 1. cbn [emit lift].
  now rewrite Hchat.
Qed.

(** X11. In live mode, when the model's message has no content, both the
    direct decoding and the search of the fallback are given [None]; the
    first [TypeError] is caught, the second is not, and
    [interpret_user_request] raises [TypeError] instead of returning the
    empty mapping. *)
Theorem missing_content_raises :
  chat_create W (chat_request_for cfg message) = Ok None ->
  interpret_user_request cfg W message st
  = (Err TypeError, after st [EvChat (chat_request_for cfg message)]).
Proof.
  intros Hchat.
  now rewrite (interpret_live cfg W message st None Hlive Hchat).
Qed.

(** X12. In live mode, when the model's text does not decode and the
    stretch between its first opening and last closing brace does not
    decode either, [interpret_user_request] raises [JSONDecodeError]: the
    empty mapping is returned only when the text has no such stretch. *)
Theorem undecodable_braces_raise (text g : string) :
  chat_create W (chat_request_for cfg message) = Ok (Some text) ->
  json_loads W text = None ->
  first_brace_delimited text g ->
  json_loads W g = None ->
  interpret_user_request cfg W message st
  = (Err JSONDecodeError, after st [EvChat (chat_request_for cfg message)]).
Proof.
  intros Hchat Htext Hg Hnone.
  rewrite (interpret_live cfg W message st (Some text) Hlive Hchat).
  unfold try_except, json_loads_py. rewrite Htext. cbn [raise].
  unfold bind, re_search. cbn [ret].
  rewrite (re_search_braces_first _ _ Hg). now rewrite Hnone.
Qed.

End LiveFailures.

(* ------------------------------------------------------------------ *)
(** ** Which requests a live run makes *)

Lemma keeps_ret {A : Type} (a : A) : keeps_state (ret a).
Proof. intros st. reflexivity. Qed.

Lemma keeps_raise {A : Type} (e : exn) : keeps_state (@raise A e).
Proof. intros st. reflexivity. Qed.

Lemma keeps_get (v : value) (key : string) (default : value) :
  keeps_state (get v key default).
Proof. intros st. now destruct v. Qed.

Lemma keeps_bind {A B : Type} (m : M A) (k : A -> M B) :
  keeps_state m -> (forall a, keeps_state (k a)) -> keeps_state (bind m k).
Proof.
  intros Hm Hk st. unfold bind. specialize (Hm st).
  destruct (m st) as [[a|e] st']; cbn [snd] in *; subst st'.
  - apply Hk.
  - reflexivity.
Qed.

Lemma keeps_try_except {A : Type} (m h : M A) :
  keeps_state m -> keeps_state h -> keeps_state (try_except m h).
Proof.
  intros Hm Hh st. unfold try_except. specialize (Hm st).
  destruct (m st) as [[a|e] st']; cbn [snd] in *; subst st'.
  - reflexivity.
  - apply Hh.
Qed.

Lemma keeps_iterate (v : value) : keeps_state (iterate v).
Proof. intros st. now destruct v. Qed.

Lemma keeps_json_loads_py (W : World) (text : option string) :
  keeps_state (json_loads_py W text).
Proof.
  intros st. destruct text as [s|]; [|reflexivity].
  unfold json_loads_py. now destruct (json_loads W s).
Qed.

Lemma keeps_response_json (r : response) : keeps_state (response_json r).
Proof. intros st. unfold response_json. now destruct (json r). Qed.

Lemma keeps_add_bullet (W : World) (start : value) (reply : string) (e : value) :
  keeps_state (add_bullet W start reply e).
Proof.
  unfold add_bullet.
  repeat (apply keeps_bind; [apply keeps_get | intros ?]).
  apply keeps_ret.
Qed.

Lemma keeps_for_each {A B : Type} (body : B -> A -> M B) (xs : list A) :
  (forall acc x, keeps_state (body acc x)) ->
  forall acc, keeps_state (for_each body acc xs).
Proof.
  intros Hb. induction xs as [|x xs IH]; intros acc; cbn [for_each].
  - apply keeps_ret.
  - apply keeps_bind; [apply Hb | intros ?; apply IH].
Qed.

Section LiveRequests.

Variable cfg : Config.
Variable W : World.
Hypothesis Hlive : mock cfg = false.

Lemma interpret_live_state (message : string) (st : State) :
  snd (interpret_user_request cfg W message st)
  = after st [EvChat (chat_request_for cfg message)].
Proof.
  unfold interpret_user_request. rewrite Hlive.
  unfold bind at 1, chat_completion. unfold bind at 1. cbn [emit lift].
  fold (after st [EvChat (chat_request_for cfg message)]).
  destruct (chat_create W (chat_request_for cfg message)) as [content|e];
    [|reflexivity].
  apply keeps_try_except; [apply keeps_json_loads_py|].
  apply keeps_bind.
  - intros s. now destruct content.
  - intros [g|]; [apply keeps_json_loads_py | apply keeps_ret].
Qed.

Lemma create_event_live_state (title desc s e : value) (st : State) :
  snd (create_event cfg W title desc s e st)
  = after st [EvPost (events_url cfg) (create_headers cfg)
                     (create_payload cfg title desc s e)].
Proof.
  unfold create_event. rewrite Hlive.
  unfold bind at 1, post. unfold bind at 1. cbn [emit lift].
  destruct (requests_post W _ _ _) as [r|err]; [|reflexivity].
  destruct (negb (ok r)); [reflexivity|]. apply keeps_response_json.
Qed.

Lemma get_events_live_state (s e : value) (st : State) :
  snd (get_events cfg W s e st)
  = after st [EvGet (events_url cfg) (list_headers cfg) (list_params s e)].
Proof.
  unfold get_events. rewrite Hlive.
  unfold bind at 1, http_get. unfold bind at 1. cbn [emit lift].
  destruct (requests_get W _ _ _) as [r|err]; [|reflexivity].
  destruct (negb (ok r)); [reflexivity|].
  apply keeps_bind; [apply keeps_response_json | intros ?; apply keeps_get].
Qed.

Lemma run_agent_live_state (message : string) (st : State) :
  exists calls,
    snd (run_agent cfg W message st)
    = after st (received message :: EvChat (chat_request_for cfg message)
                :: calls) /\
    at_most_one_calendar_call cfg calls.
Proof.
  unfold run_agent. unfold bind at 1. cbn [log_info emit].
  fold (after st [EvLog ("🤖 Received message: " ++ message)]).
  fold (received message).
  assert (Hst := interpret_live_state message (after st [received message])).
  rewrite after_after in Hst. cbn [app] in Hst.
  unfold bind at 1.
  destruct (interpret_user_request cfg W message (after st [received message]))
    as [[data|err] st1]; cbn [snd] in Hst; subst st1.
  2:{ exists []. split; [reflexivity | now left]. }
  destruct data as [| | | | | |d];
    try (exists []; split; [reflexivity | now left]).
  unfold bind at 1. rewrite get_dict.
  destruct (eq_str _ "create").
  - repeat (unfold bind at 1; rewrite get_dict).
    match goal with
    | |- context [bind (create_event cfg W ?t ?de ?s ?e) _ ?st0] =>
        assert (Hc := create_event_live_state t de s e st0);
        exists [EvPost (events_url cfg) (create_headers cfg)
                       (create_payload cfg t de s e)];
        split; [|right; left; now exists t, de, s, e];
        unfold bind at 1;
        destruct (create_event cfg W t de s e st0) as [[r|err] st2]
    end; cbn [snd] in Hc; subst st2; rewrite after_after; cbn [app].
    + apply (keeps_bind (get r "htmlLink" VNone));
        [apply keeps_get | intros ?; apply keeps_ret].
    + reflexivity.
  - destruct (eq_str _ "get").
    + repeat (unfold bind at 1; rewrite get_dict).
      match goal with
      | |- context [bind (get_events cfg W ?s ?e) _ ?st0] =>
          assert (Hg := get_events_live_state s e st0);
          exists [EvGet (events_url cfg) (list_headers cfg) (list_params s e)];
          split; [|right; right; now exists s, e];
          unfold bind at 1;
          destruct (get_events cfg W s e st0) as [[events|err] st2]
      end; cbn [snd] in Hg; subst st2; rewrite after_after; cbn [app].
      * destruct (negb (truthy events)); [reflexivity|].
        apply keeps_bind; [apply keeps_iterate|].
        intros items. apply keeps_for_each. intros acc x.
        apply keeps_add_bullet.
      * reflexivity.
    + exists []. split; [reflexivity | now left].
Qed.

End LiveRequests.

(** X13. In live mode every run of [run_agent] logs the message, sends
    exactly one chat request, and then makes at most one calendar
    request, a creation or a listing, addressed to the events URL of the
    configured calendar with the bearer token.  It never reads the clock
    and never prints; this holds whether the run returns or raises. *)
Theorem live_run_makes_at_most_two_requests (cfg : Config) (W : World)
    (message : string) (st : State) :
  mock cfg = false ->
  exists calls,
    snd (run_agent cfg W message st)
    = after st (received message :: EvChat (chat_request_for cfg message)
                :: calls) /\
    at_most_one_calendar_call cfg calls.
Proof. intros Hlive. now apply run_agent_live_state. Qed.

(** [main] prints exactly when [run_agent] returns: the reply, once,
    as the last event of the run.  When [run_agent] raises, [main]
    raises the same exception and the run ends where [run_agent]
    stopped. *)
Lemma main_prints_reply_once (cfg : Config) (W : World)
    (args : list string) (st : State) :
  match run_agent cfg W (user_input_of args) st with
  | (Ok reply, st') => main cfg W args st = (Ok tt, after st' [EvPrint reply])
  | (Err err, st') => main cfg W args st = (Err err, st')
  end.
Proof.
  unfold main, bind.
  now destruct (run_agent cfg W (user_input_of args) st) as [[reply|err] st'].
Qed.

(* ------------------------------------------------------------------ *)
(** ** Listings *)

Section Listings.

Variable cfg : Config.
Variable W : World.
Variable message : string.
Variable st st1 st2 : State.
Variable d : list (string * value).

Hypothesis Hintent :
  interpret_user_request cfg W message (after st [received message])
  = (Ok (VDict d), st1).
Hypothesis Haction : lookup "action" d = Some (VStr "get").

Lemma run_agent_listing (events : value) :
  get_events cfg W (field d "start_date") (field d "end_date") st1
  = (Ok events, st2) ->
  run_agent cfg W message st
  = (if negb (truthy events) then ret no_events
     else bind (iterate events)
            (for_each (add_bullet W (field d "start_date")) events_header))
      st2.
Proof.
  intros Hg. rewrite (run_agent_get cfg W message st st1 d Hintent Haction).
  now rewrite (bind_ok _ _ _ _ _ Hg).
Qed.

(** X14. When the calendar client returns anything false ([None] from
    ["items": null], an empty list, an empty mapping, zero, an empty
    string), the reply is the fixed "no events" sentence. *)
Theorem falsy_listing_reply (events : value) :
  get_events cfg W (field d "start_date") (field d "end_date") st1
  = (Ok events, st2) ->
  truthy events = false ->
  run_agent cfg W message st = (Ok no_events, st2).
Proof.
  intros Hg Hf. rewrite (run_agent_listing events Hg), Hf. reflexivity.
Qed.

(** X15. When the calendar client returns a non-empty list of events,
    each a mapping whose ["start"], if present, is a mapping, the reply
    is the header followed by one bullet line per event, in the order of
    the list; each line shows the summary of its event (["Untitled"]
    without one) and the event's own ["dateTime"], or the start asked
    for when the event has none. *)
Theorem listing_reply_lines (ev : list (string * value))
    (evs : list (list (string * value))) :
  get_events cfg W (field d "start_date") (field d "end_date") st1
  = (Ok (VList (map VDict (ev :: evs))), st2) ->
  Forall start_is_dict (ev :: evs) ->
  run_agent cfg W message st
  = (Ok (events_header
         ++ String.concat ""
              (map (bullet_line W (field d "start_date")) (ev :: evs))),
     st2).
Proof.
  intros Hg Hwf. rewrite (run_agent_listing _ Hg).
  cbn [map truthy negb]. unfold bind at 1. cbn [iterate ret].
  apply (listing_lines W (field d "start_date") (ev :: evs) events_header st2 Hwf).
Qed.

(** X16. One item the formatter cannot show spoils the whole listing:
    when the list holds an item that is not a mapping, or a mapping
    whose ["start"] is not a mapping, after any number of well-formed
    events, [run_agent] raises [AttributeError] and the lines built so
    far are lost. *)
Theorem malformed_event_raises (good : list (list (string * value)))
    (bad : value) (rest : list value) :
  get_events cfg W (field d "start_date") (field d "end_date") st1
  = (Ok (VList (map VDict good ++ bad :: rest)), st2) ->
  Forall start_is_dict good ->
  malformed_event bad ->
  run_agent cfg W message st = (Err AttributeError, st2).
Proof.
  intros Hg Hgood Hbad. rewrite (run_agent_listing _ Hg).
  assert (Htruthy : truthy (VList (map VDict good ++ bad :: rest)) = true)
    by (cbn [truthy]; now destruct good).
  rewrite Htruthy. cbn [negb]. unfold bind at 1. cbn [iterate ret].
  clear Hg Htruthy. generalize events_header as reply.
  induction Hgood as [|ev good Hev _ IH]; intros reply.
  - cbn [map app for_each]. unfold bind at 1.
    assert (Hb : add_bullet W (field d "start_date") reply bad st2
                 = (Err AttributeError, st2)).
    { destruct Hbad as [Hnd | (ev & x & -> & Hs & Hx)].
      - destruct bad; try reflexivity. now destruct (Hnd entries).
      - unfold add_bullet. unfold bind at 1. rewrite get_dict.
        unfold bind at 1. rewrite get_dict, Hs.
        destruct x; try reflexivity. now destruct (Hx entries). }
    now rewrite Hb.
  - cbn [map app for_each].
    rewrite (bind_ok _ _ _ _ _
               (add_bullet_line W (field d "start_date") reply ev st2 Hev)).
    apply IH.
Qed.

(** X17. A true value that is not a list is iterated all the same: a
    mapping yields its keys and a string its characters, on which
    [.get] raises [AttributeError]; a number or [True] cannot be
    iterated and raises [TypeError]. *)
Theorem non_list_listing_raises (events : value) :
  get_events cfg W (field d "start_date") (field d "end_date") st1
  = (Ok events, st2) ->
  truthy events = true ->
  (forall items, events <> VList items) ->
  run_agent cfg W message st
  = (Err (match events with
          | VDict _ | VStr _ => AttributeError
          | _ => TypeError
          end), st2).
Proof.
  intros Hg Ht Hnl. rewrite (run_agent_listing _ Hg), Ht. cbn [negb].
  destruct events as [|b|n|x|s|items|entries]; try reflexivity.
  - destruct s; [discriminate Ht | reflexivity].
  - now destruct (Hnl items).
  - destruct entries; [discriminate Ht | reflexivity].
Qed.

End Listings.

(* ------------------------------------------------------------------ *)
(** ** Confirmations *)

(** X18. After a creation the reply names the title and shows
    [result.get('htmlLink')]: the link when the result has one, the word
    [None] when it has not.  A result that is not a mapping makes
    [run_agent] raise [AttributeError], after the event was created. *)
Theorem create_reply_shows_link (cfg : Config) (W : World) (message : string)
    (st st1 st2 : State) (d : list (string * value)) (result : value) :
  interpret_user_request cfg W message (after st [received message])
  = (Ok (VDict d), st1) ->
  lookup "action" d = Some (VStr "create") ->
  create_event cfg W (title_of d)
    (match lookup "event_description" d with
     | Some x => x
     | None => VStr ""
     end)
    (field d "start_date") (field d "end_date") st1 = (Ok result, st2) ->
  let confirmation :=
    "✅ Event '" ++ py_str W (title_of d) ++ "' created successfully!" ++ nl in
  (forall r link, result = VDict r -> lookup "htmlLink" r = Some link ->
     run_agent cfg W message st = (Ok (confirmation ++ py_str W link), st2)) /\
  (forall r, result = VDict r -> lookup "htmlLink" r = None ->
     run_agent cfg W message st = (Ok (confirmation ++ "None"), st2)) /\
  ((forall r, result <> VDict r) ->
     run_agent cfg W message st = (Err AttributeError, st2)).
Proof.
  intros Hi Ha Hc confirmation.
  rewrite (run_agent_create cfg W message st st1 d Hi Ha).
  rewrite (bind_ok _ _ _ _ _ Hc). subst confirmation.
  split; [|split].
  - intros r link -> Hl. unfold bind at 1. rewrite get_dict, Hl.
    cbn [ret]. now rewrite !app_assoc_s.
  - intros r -> Hl. unfold bind at 1. rewrite get_dict, Hl.
    cbn [ret]. now rewrite !app_assoc_s.
  - intros Hr. destruct result; try reflexivity. now destruct (Hr entries).
Qed.

(* ------------------------------------------------------------------ *)
(** ** The calendar client on other answers *)

Section LiveCalendar.

Variable cfg : Config.
Variable W : World.
Hypothesis Hlive : mock cfg = false.

(** X19. In live mode a success response is taken at its word:
    [create_event] returns the decoded body, whatever it is, and
    [get_events] the ["items"] of the body, or the empty list when the
    body has none.  A body that is not JSON raises [JSONDecodeError]
    and, for [get_events], a body that is not a mapping raises
    [AttributeError], in both cases after the request was made. *)
Theorem calendar_success_outcomes (r : response) :
  ok r = true ->
  (forall title desc s e st,
     requests_post W (events_url cfg) (create_headers cfg)
       (create_payload cfg title desc s e) = Ok r ->
     create_event cfg W title desc s e st
     = (match json r with
        | Some body => Ok body
        | None => Err JSONDecodeError
        end,
        after st [EvPost (events_url cfg) (create_headers cfg)
                         (create_payload cfg title desc s e)])) /\
  (forall s e st,
     requests_get W (events_url cfg) (list_headers cfg) (list_params s e)
     = Ok r ->
     get_events cfg W s e st
     = (match json r with
        | Some (VDict body) =>
            Ok (match lookup "items" body with
                | Some items => items
                | None => VList []
                end)
        | Some _ => Err AttributeError
        | None => Err JSONDecodeError
        end,
        after st [EvGet (events_url cfg) (list_headers cfg)
                        (list_params s e)])).
Proof.
  intros Hok. split.
  - intros title desc s e st Hpost. unfold create_event. rewrite Hlive.
    unfold bind at 1, post. unfold bind at 1. cbn [emit lift].
    rewrite Hpost, Hok. cbn [negb]. unfold response_json.
    now destruct (json r).
  - intros s e st Hget. unfold get_events. rewrite Hlive.
    unfold bind at 1, http_get. unfold bind at 1. cbn [emit lift].
    rewrite Hget, Hok. cbn [negb]. unfold bind, response_json.
    destruct (json r) as [[| | | | | |body]|]; reflexivity.
Qed.

(** X20. In live mode an exception raised inside the HTTP library (no
    connection, a time-out) comes out of [create_event] and
    [get_events] unchanged: it is not turned into the "API error"
    exception, which is kept for responses that did arrive. *)
Theorem transport_failure_propagates (err : exn) :
  (forall title desc s e st,
     requests_post W (events_url cfg) (create_headers cfg)
       (create_payload cfg title desc s e) = Err err ->
     create_event cfg W title desc s e st
     = (Err err,
        after st [EvPost (events_url cfg) (create_headers cfg)
                         (create_payload cfg title desc s e)])) /\
  (forall s e st,
     requests_get W (events_url cfg) (list_headers cfg) (list_params s e)
     = Err err ->
     get_events cfg W s e st
     = (Err err,
        after st [EvGet (events_url cfg) (list_headers cfg)
                        (list_params s e)])).
Proof.
  split.
  - intros title desc s e st Hpost. unfold create_event. rewrite Hlive.
    unfold bind at 1, post. unfold bind at 1. cbn [emit lift].
    now rewrite Hpost.
  - intros s e st Hget. unfold get_events. rewrite Hlive.
    unfold bind at 1, http_get. unfold bind at 1. cbn [emit lift].
    now rewrite Hget.
Qed.

End LiveCalendar.

(* ------------------------------------------------------------------ *)
(** ** The further properties at concrete inputs *)

Lemma mock_run_agent_confirms_witness :
  mock mock_cfg = true /\
  occurs_ignoring_case "add" "Please ADD lunch with Bob" /\
  exists lines,
    length lines = 3%nat /\
    run_agent mock_cfg (offline_world 1) "Please ADD lunch with Bob" initial
    = (Ok mock_confirmation, after_two_readings initial (map EvLog lines)).
Proof.
  assert (Hocc : occurs_ignoring_case "add" "Please ADD lunch with Bob").
  { apply (contains_lower_iff "add"). vm_compute. reflexivity. }
  split; [reflexivity|]. split; [exact Hocc|].
  exact (mock_run_agent_confirms mock_cfg (offline_world 1)
           "Please ADD lunch with Bob" initial eq_refl (or_intror Hocc)).
Defined.

Lemma mock_run_agent_listing_raises_witness :
  mock mock_cfg = true /\
  ~ occurs_ignoring_case "create" "What is on today?" /\
  ~ occurs_ignoring_case "add" "What is on today?" /\
  exists lines,
    length lines = 3%nat /\
    run_agent mock_cfg (offline_world 1) "What is on today?" initial
    = (Err AttributeError, after_two_readings initial (map EvLog lines)).
Proof.
  split; [reflexivity|].
  split; [exact no_create_in_question|]. split; [exact no_add_in_question|].
  exact (mock_run_agent_listing_raises mock_cfg (offline_world 1)
           "What is on today?" initial eq_refl
           no_create_in_question no_add_in_question).
Defined.


Lemma user_input_never_empty_witness :
  user_input_of [""] <> "" /\
  user_input_of [""] = default_message /\
  user_input_of [""; ""] = " ".
Proof.
  destruct (user_input_never_empty [""]) as (Hne & Hdefault & _).
  destruct (user_input_never_empty [""; ""]) as (_ & _ & Hjoin).
  split; [exact Hne|]. split.
  - apply Hdefault. now right.
  - apply Hjoin; discriminate.
Defined.


Lemma unrecognized_action_greets_witness :
  exists st1,
    interpret_user_request live_cfg delete_world "Delete my meeting"
      (after initial [received "Delete my meeting"])
    = (Ok delete_intent, st1) /\
    lookup "action" [("action", VStr "delete")] <> Some (VStr "create") /\
    lookup "action" [("action", VStr "delete")] <> Some (VStr "get") /\
    run_agent live_cfg delete_world "Delete my meeting" initial
    = (Ok greeting, st1).
Proof.
  eexists. split; [reflexivity|].
  split; [discriminate|]. split; [discriminate|].
  apply (unrecognized_action_greets live_cfg delete_world "Delete my meeting"
           initial _ [("action", VStr "delete")]);
    [reflexivity | discriminate | discriminate].
Defined.

Lemma non_mapping_intent_raises_witness :
  exists st1,
    interpret_user_request live_cfg array_world "Anything"
      (after initial [received "Anything"])
    = (Ok (VList []), st1) /\
    (forall d, VList [] <> VDict d) /\
    run_agent live_cfg array_world "Anything" initial
    = (Err AttributeError, st1).
Proof.
  eexists. split; [reflexivity|]. split; [discriminate|].
  apply (non_mapping_intent_raises live_cfg array_world "Anything" initial _
           (VList [])); [reflexivity | discriminate].
Defined.

Lemma interpreter_failure_propagates_witness :
  exists st1,
    interpret_user_request live_cfg down_world "Add lunch"
      (after initial [received "Add lunch"])
    = (Err (LibraryError "APIConnectionError"), st1) /\
    main live_cfg down_world ["Add"; "lunch"] initial
    = (Err (LibraryError "APIConnectionError"), st1).
Proof.
  eexists. split; [reflexivity|].
  apply (interpreter_failure_propagates live_cfg down_world "Add lunch"
           initial _ (LibraryError "APIConnectionError")); reflexivity.
Defined.

Lemma chat_failure_not_recovered_witness :
  mock live_cfg = false /\
  chat_create down_world (chat_request_for live_cfg "Add lunch")
  = Err (LibraryError "APIConnectionError") /\
  interpret_user_request live_cfg down_world "Add lunch" initial
  = (Err (LibraryError "APIConnectionError"),
     after initial [EvChat (chat_request_for live_cfg "Add lunch")]).
Proof.
  split; [reflexivity|]. split; [reflexivity|].
  exact (chat_failure_not_recovered live_cfg down_world "Add lunch" initial
           eq_refl (LibraryError "APIConnectionError") eq_refl).
Defined.

Lemma missing_content_raises_witness :
  mock live_cfg = false /\
  chat_create silent_world (chat_request_for live_cfg "Add lunch") = Ok None /\
  interpret_user_request live_cfg silent_world "Add lunch" initial
  = (Err TypeError,
     after initial [EvChat (chat_request_for live_cfg "Add lunch")]).
Proof.
  split; [reflexivity|]. split; [reflexivity|].
  exact (missing_content_raises live_cfg silent_world "Add lunch" initial
           eq_refl eq_refl).
Defined.

Lemma undecodable_braces_raise_witness :
  mock live_cfg = false /\
  first_brace_delimited "Here you go: {action: get} I hope it helps"
    "{action: get}" /\
  interpret_user_request live_cfg broken_world "What is on?" initial
  = (Err JSONDecodeError,
     after initial [EvChat (chat_request_for live_cfg "What is on?")]).
Proof.
  assert (Hg : first_brace_delimited
                 "Here you go: {action: get} I hope it helps" "{action: get}").
  { apply re_search_braces_some. vm_compute. reflexivity. }
  split; [reflexivity|]. split; [exact Hg|].
  exact (undecodable_braces_raise live_cfg broken_world "What is on?" initial
           eq_refl _ _ eq_refl eq_refl Hg eq_refl).
Defined.

Lemma live_run_makes_at_most_two_requests_witness :
  mock live_cfg = false /\
  exists calls,
    snd (run_agent live_cfg busy_world "What is on in May?" initial)
    = after initial (received "What is on in May?"
                     :: EvChat (chat_request_for live_cfg "What is on in May?")
                     :: calls) /\
    at_most_one_calendar_call live_cfg calls.
Proof.
  split; [reflexivity|].
  exact (live_run_makes_at_most_two_requests live_cfg busy_world
           "What is on in May?" initial eq_refl).
Defined.

Lemma falsy_listing_reply_witness :
  exists st1 st2,
    interpret_user_request live_cfg bare_world "What is on in May?"
      (after initial [received "What is on in May?"])
    = (Ok get_intent, st1) /\
    get_events live_cfg bare_world (VStr "2024-05-01T00:00:00")
      (VStr "2024-05-02T00:00:00") st1 = (Ok (VList []), st2) /\
    run_agent live_cfg bare_world "What is on in May?" initial
    = (Ok no_events, st2).
Proof.
  do 2 eexists. split; [reflexivity|]. split; [reflexivity|].
  apply (falsy_listing_reply live_cfg bare_world "What is on in May?"
           initial _ _
           [("action", VStr "get");
            ("start_date", VStr "2024-05-01T00:00:00");
            ("end_date", VStr "2024-05-02T00:00:00")]
           eq_refl eq_refl (VList [])); reflexivity.
Defined.

Lemma listing_reply_lines_witness :
  exists st1 st2,
    interpret_user_request live_cfg busy_world "What is on in May?"
      (after initial [received "What is on in May?"])
    = (Ok get_intent, st1) /\
    get_events live_cfg busy_world (VStr "2024-05-01T00:00:00")
      (VStr "2024-05-02T00:00:00") st1
    = (Ok (VList (map VDict two_events)), st2) /\
    Forall start_is_dict two_events /\
    run_agent live_cfg busy_world "What is on in May?" initial
    = (Ok (events_header
           ++ "- Standup (2024-05-01T09:30:00)" ++ nl
           ++ "- Untitled (2024-05-01T00:00:00)" ++ nl), st2).
Proof.
  assert (Hwf : Forall start_is_dict two_events).
  { apply Forall_cons; [right; eexists; reflexivity|].
    apply Forall_cons; [left; reflexivity | apply Forall_nil]. }
  do 2 eexists. split; [reflexivity|]. split; [reflexivity|].
  split; [exact Hwf|].
  apply (listing_reply_lines live_cfg busy_world "What is on in May?"
           initial _ _
           [("action", VStr "get");
            ("start_date", VStr "2024-05-01T00:00:00");
            ("end_date", VStr "2024-05-02T00:00:00")]
           eq_refl eq_refl _ _ eq_refl Hwf).
Defined.

Lemma malformed_event_raises_witness :
  exists st1 st2,
    interpret_user_request live_cfg odd_world "What is on in May?"
      (after initial [received "What is on in May?"])
    = (Ok get_intent, st1) /\
    malformed_event (VDict [("summary", VStr "Odd");
                            ("start", VStr "2024-05-01")]) /\
    run_agent live_cfg odd_world "What is on in May?" initial
    = (Err AttributeError, st2) /\
    network_calls (trace st2)
    = [EvChat (chat_request_for live_cfg "What is on in May?");
       EvGet (events_url live_cfg) (list_headers live_cfg)
         (list_params (VStr "2024-05-01T00:00:00")
            (VStr "2024-05-02T00:00:00"))].
Proof.
  assert (Hbad : malformed_event (VDict [("summary", VStr "Odd");
                                         ("start", VStr "2024-05-01")])).
  { right. do 2 eexists. split; [reflexivity|]. split; [reflexivity|].
    discriminate. }
  do 2 eexists. split; [reflexivity|]. split; [exact Hbad|]. split.
  - apply (malformed_event_raises live_cfg odd_world "What is on in May?"
             initial _ _
             [("action", VStr "get");
              ("start_date", VStr "2024-05-01T00:00:00");
              ("end_date", VStr "2024-05-02T00:00:00")]
             eq_refl eq_refl
             [[("summary", VStr "Standup")]]
             (VDict [("summary", VStr "Odd"); ("start", VStr "2024-05-01")])
             [VDict [("summary", VStr "Never shown")]]).
    + reflexivity.
    + apply Forall_cons; [left; reflexivity | apply Forall_nil].
    + exact Hbad.
  - reflexivity.
Defined.

Lemma non_list_listing_raises_witness :
  exists st1 st2,
    interpret_user_request live_cfg numeric_world "What is on in May?"
      (after initial [received "What is on in May?"])
    = (Ok get_intent, st1) /\
    get_events live_cfg numeric_world (VStr "2024-05-01T00:00:00")
      (VStr "2024-05-02T00:00:00") st1 = (Ok (VInt 7), st2) /\
    run_agent live_cfg numeric_world "What is on in May?" initial
    = (Err TypeError, st2).
Proof.
  do 2 eexists. split; [reflexivity|]. split; [reflexivity|].
  apply (non_list_listing_raises live_cfg numeric_world "What is on in May?"
           initial _ _
           [("action", VStr "get");
            ("start_date", VStr "2024-05-01T00:00:00");
            ("end_date", VStr "2024-05-02T00:00:00")]
           eq_refl eq_refl (VInt 7)); [reflexivity | reflexivity | discriminate].
Defined.

Lemma create_reply_shows_link_witness :
  exists st1 st2,
    interpret_user_request live_cfg linkless_world "Book something"
      (after initial [received "Book something"])
    = (Ok untitled_intent, st1) /\
    create_event live_cfg linkless_world (VStr "Untitled Event") (VStr "")
      (VStr "2024-05-01T09:00:00") (VStr "2024-05-01T10:00:00") st1
    = (Ok (VDict []), st2) /\
    run_agent live_cfg linkless_world "Book something" initial
    = (Ok ("✅ Event 'Untitled Event' created successfully!" ++ nl ++ "None"),
       st2).
Proof.
  do 2 eexists. split; [reflexivity|]. split; [reflexivity|].
  destruct (create_reply_shows_link live_cfg linkless_world "Book something"
              initial _ _
              [("action", VStr "create");
               ("event_title", VStr "");
               ("start_date", VStr "2024-05-01T09:00:00");
               ("end_date", VStr "2024-05-01T10:00:00")]
              (VDict []) eq_refl eq_refl eq_refl)
    as (_ & Hnone & _).
  exact (Hnone [] eq_refl eq_refl).
Defined.

Lemma calendar_success_outcomes_witness :
  mock live_cfg = false /\
  ok html_page = true /\
  create_event live_cfg html_world (VStr "Lunch") (VStr "")
    (VStr "2024-05-01T12:00:00") (VStr "2024-05-01T13:00:00") initial
  = (Err JSONDecodeError,
     after initial
       [EvPost (events_url live_cfg) (create_headers live_cfg)
          (create_payload live_cfg (VStr "Lunch") (VStr "")
             (VStr "2024-05-01T12:00:00") (VStr "2024-05-01T13:00:00"))]).
Proof.
  split; [reflexivity|]. split; [reflexivity|].
  destruct (calendar_success_outcomes live_cfg html_world eq_refl html_page
              eq_refl) as (Hcreate & _).
  exact (Hcreate (VStr "Lunch") (VStr "") (VStr "2024-05-01T12:00:00")
           (VStr "2024-05-01T13:00:00") initial eq_refl).
Defined.

Lemma transport_failure_propagates_witness :
  mock live_cfg = false /\
  get_events live_cfg delete_world (VStr "2024-05-01T00:00:00")
    (VStr "2024-05-02T00:00:00") initial
  = (Err (LibraryError "ConnectionError"),
     after initial
       [EvGet (events_url live_cfg) (list_headers live_cfg)
          (list_params (VStr "2024-05-01T00:00:00")
             (VStr "2024-05-02T00:00:00"))]).
Proof.
  split; [reflexivity|].
  destruct (transport_failure_propagates live_cfg delete_world eq_refl
              (LibraryError "ConnectionError")) as (_ & Hget).
  exact (Hget (VStr "2024-05-01T00:00:00") (VStr "2024-05-02T00:00:00")
           initial eq_refl).
Defined.

(* ------------------------------------------------------------------ *)
(** ** From the environment to the run *)

Lemma network_calls_logs (lines : list string) :
  network_calls (map EvLog lines) = [].
Proof. induction lines; [reflexivity | assumption]. Qed.

Lemma blank_gives_mock (env : environ) :
  blank env "OPENAI_API_KEY" \/ blank env "GOOGLE_API_TOKEN"
  \/ blank env "CALENDAR_ID" ->
  mock (load_from_env env) = true.
Proof.
  unfold load_from_env. cbn [mock].
  rewrite negb_true_iff, !andb_false_iff, !nonempty_false_iff,
    !getenv_empty_iff. tauto.
Qed.


(** X21. Whenever one of the three credentials is absent or empty in the
    environment, the program started from that environment makes no
    network call at all, on any command line: the trace of [main] gains
    log lines and at most the printed reply. *)
Theorem blank_credential_means_offline (env : environ) (W : World)
    (args : list string) (st : State) :
  blank env "OPENAI_API_KEY" \/ blank env "GOOGLE_API_TOKEN"
  \/ blank env "CALENDAR_ID" ->
  network_calls (trace (snd (main (load_from_env env) W args st)))
  = network_calls (trace st).
Proof.
  intros Hblank. assert (Hmock := blank_gives_mock env Hblank).
  unfold main.
  destruct (contains "create" (lower (user_input_of args))
            || contains "add" (lower (user_input_of args)))%bool eqn:Ht.
  - rewrite (bind_ok _ _ _ _ _
               (run_agent_mock_create _ W Hmock (user_input_of args) st Ht)).
    unfold print, emit, after_two_readings. cbn [snd ticks trace].
    rewrite !network_calls_app, network_calls_logs. cbn.
    now rewrite !app_nil_r.
  - rewrite (bind_err _ _ _ _ _
               (run_agent_mock_get _ W Hmock (user_input_of args) st Ht)).
    unfold after_two_readings. cbn [snd ticks trace].
    rewrite network_calls_app, network_calls_logs. apply app_nil_r.
Qed.


Lemma blank_credential_means_offline_witness :
  blank (env_of [("OPENAI_API_KEY", "sk-test"); ("GOOGLE_API_TOKEN", "")])
    "GOOGLE_API_TOKEN" /\
  network_calls
    (trace (snd (main (load_from_env
                         (env_of [("OPENAI_API_KEY", "sk-test");
                                  ("GOOGLE_API_TOKEN", "")]))
                   listing_world ["What"; "is"; "on?"] initial)))
  = network_calls (trace initial).
Proof.
  assert (Hb : blank (env_of [("OPENAI_API_KEY", "sk-test");
                              ("GOOGLE_API_TOKEN", "")]) "GOOGLE_API_TOKEN")
    by (right; reflexivity).
  split; [exact Hb|].
  exact (blank_credential_means_offline _ listing_world ["What"; "is"; "on?"]
           initial (or_intror (or_introl Hb))).
Defined.

